(** * serverless-wso2-apim: the WSO2 API Manager 2.6.0 adapter

    A shallow embedding of [src/2.6.0/wso2apim.js]: the payload mapper
    [constructAPIDef] with [constructCorsConfiguration], and the promise
    based operations of the adapter, followed by the properties the
    specification states about them.

    JavaScript values are modelled as a tree type; an object is the list of
    its own enumerable properties in [Object.keys] order.  Numbers are the
    integer valued ones (no fractions, NaN or infinities), printed
    faithfully within the safe integers; a string is a sequence of 8-bit
    characters, which for text outside ASCII are the bytes of its UTF-8
    encoding. *)

From Stdlib Require Import List String Ascii ZArith Bool Lia DecimalString.
Import ListNotations.
Local Open Scope string_scope.

(** ** JavaScript values *)

Unset Elimination Schemes.
Inductive value : Type :=
| VUndefined
| VNull
| VBool (b : bool)
| VNum (n : Z)
| VStr (s : string)
| VArr (items : list value)
| VObj (fields : list (string * value)).
Set Elimination Schemes.


(** ToBoolean: [undefined], [null], [false], [0] and [''] are falsy. *)
Definition truthy (v : value) : bool :=
  match v with
  | VUndefined | VNull => false
  | VBool b => b
  | VNum n => negb (n =? 0)%Z
  | VStr s => negb (s =? "")
  | VArr _ | VObj _ => true
  end.

Definition nullish (v : value) : bool :=
  match v with
  | VUndefined | VNull => true
  | _ => false
  end.

(** Number::toString for a safe integer (one of magnitude at most
    [2^53 - 1]): its decimal digits.  From [10^21] on JavaScript prints the
    exponent form; the statements that print a number of the caller keep to
    the safe integers. *)
Definition number_to_string (n : Z) : string :=
  NilZero.string_of_int (Z.to_int n).

(** [Array.prototype.join]'s folding of already rendered items. *)
Fixpoint join (sep : string) (parts : list string) : string :=
  match parts with
  | [] => ""
  | [p] => p
  | p :: rest => p ++ sep ++ join sep rest
  end.

(** ToString.  An array renders as its items joined by a comma, with
    [undefined] and [null] items rendered empty; a plain object renders as
    ['[object Object]']. *)
Fixpoint to_string (v : value) : string :=
  match v with
  | VUndefined => "undefined"
  | VNull => "null"
  | VBool true => "true"
  | VBool false => "false"
  | VNum n => number_to_string n
  | VStr s => s
  | VArr items =>
      join ","
        (map (fun x => match x with
                       | VUndefined | VNull => ""
                       | _ => to_string x
                       end) items)
  | VObj _ => "[object Object]"
  end.

(** [items.join(sep)] on an array of values. *)
Definition array_join (items : list value) (sep : string) : string :=
  join sep
    (map (fun x => if nullish x then "" else to_string x) items).

(** Own property lookup in an object's property list. *)
Fixpoint lookup (k : string) (fields : list (string * value)) : value :=
  match fields with
  | [] => VUndefined
  | (k', v) :: rest => if k' =? k then v else lookup k rest
  end.

Fixpoint has_key (k : string) (fields : list (string * value)) : bool :=
  match fields with
  | [] => false
  | (k', _) :: rest => (k' =? k) || has_key k rest
  end.

(** [o[k] = v] on a property list: overwrite in place, else append. *)
Fixpoint assign (k : string) (v : value) (fields : list (string * value))
  : list (string * value) :=
  match fields with
  | [] => [(k, v)]
  | (k', v') :: rest =>
      if k' =? k then (k, v) :: rest else (k', v') :: assign k v rest
  end.

(** ** Exceptions and the error log

    A computation either returns or throws a value; it threads the list of
    errors handed to [utils.renderError] (oldest first), which is the only
    effect of this module besides the HTTP calls. *)

Inductive completion (A : Type) : Type :=
| Normal (a : A)
| Throw (e : value).
Arguments Normal {A} a.
Arguments Throw {A} e.

Definition TypeError : value := VObj [("name", VStr "TypeError")].

Definition log := list value.

(** Pure code that may throw. *)
Definition bindC {A B} (c : completion A) (k : A -> completion B) : completion B :=
  match c with
  | Normal a => k a
  | Throw e => Throw e
  end.

Declare Scope js_scope.
Delimit Scope js_scope with js.
Notation "'let*' x ':=' c 'in' k" := (bindC c (fun x => k))
  (at level 10, x name, c at level 100, k at level 200) : js_scope.
Local Open Scope js_scope.

(** Property read [v.k].  Reading a property of [undefined] or [null]
    throws a TypeError; an object yields its own property or [undefined].
    The names read in this module are fixed identifiers, none of them a
    member of the Array, String, Number or Boolean prototypes, so every
    other kind of value yields [undefined]. *)
Definition read (k : string) (v : value) : value :=
  match v with
  | VObj fields => lookup k fields
  | _ => VUndefined
  end.

Definition get (k : string) (v : value) : completion value :=
  if nullish v then Throw TypeError else Normal (read k v).

(** [Object.keys(v)] for a value that is not nullish (ES2015 semantics:
    a primitive is boxed; a string and an array list their indices). *)
Definition index_keys (n : nat) : list string :=
  map (fun i => number_to_string (Z.of_nat i)) (seq 0 n).

Definition object_keys (v : value) : list string :=
  match v with
  | VObj fields => map fst fields
  | VArr items => index_keys (List.length items)
  | VStr s => index_keys (String.length s)
  | _ => []
  end.

(** ** JSON.stringify *)

Definition hex_digit (n : nat) : ascii :=
  match n with
  | 0 => "0" | 1 => "1" | 2 => "2" | 3 => "3" | 4 => "4" | 5 => "5"
  | 6 => "6" | 7 => "7" | 8 => "8" | 9 => "9" | 10 => "a" | 11 => "b"
  | 12 => "c" | 13 => "d" | 14 => "e" | _ => "f"
  end%char.

(** QuoteJSONString on one character: the two-character escapes, [\u00XX]
    for the remaining control characters, anything else unchanged. *)
Definition json_escape_char (c : ascii) : string :=
  let n := nat_of_ascii c in
  if Nat.eqb n 34 then "\" ++ String c ""
  else if Nat.eqb n 92 then "\\"
  else if Nat.eqb n 8 then "\b"
  else if Nat.eqb n 12 then "\f"
  else if Nat.eqb n 10 then "\n"
  else if Nat.eqb n 13 then "\r"
  else if Nat.eqb n 9 then "\t"
  else if Nat.ltb n 32 then
    "\u00" ++ String (hex_digit (n / 16)) (String (hex_digit (n mod 16)) "")
  else String c "".

Fixpoint json_escape (s : string) : string :=
  match s with
  | EmptyString => ""
  | String c rest => json_escape_char c ++ json_escape rest
  end.

Definition dquote : string := String (ascii_of_nat 34) "".

Definition json_quote (s : string) : string := dquote ++ json_escape s ++ dquote.

Fixpoint somes {A} (l : list (option A)) : list A :=
  match l with
  | [] => []
  | Some a :: rest => a :: somes rest
  | None :: rest => somes rest
  end.

(** SerializeJSONProperty: [None] stands for the [undefined] result.  An
    [undefined] array item is written [null]; an object property whose
    value is [undefined] is left out. *)
Fixpoint json_serialize (v : value) : option string :=
  match v with
  | VUndefined => None
  | VNull => Some "null"
  | VBool true => Some "true"
  | VBool false => Some "false"
  | VNum n => Some (number_to_string n)
  | VStr s => Some (json_quote s)
  | VArr items =>
      Some ("[" ++ join ","
                     (map (fun x => match json_serialize x with
                                    | Some t => t
                                    | None => "null"
                                    end) items) ++ "]")
  | VObj fields =>
      Some ("{" ++ join ","
                     (somes
                        (map (fun kv => match json_serialize (snd kv) with
                                        | Some t => Some (json_quote (fst kv) ++ ":" ++ t)
                                        | None => None
                                        end) fields)) ++ "}")
  end.

Definition JSON_stringify (v : value) : value :=
  match json_serialize v with
  | Some t => VStr t
  | None => VUndefined
  end.

(** ** qs.stringify

    The [qs] package's [stringify] with its default options (array format
    [indices], delimiter [&], nulls written as empty values) and the
    [encode] option as the flag [encode].  With [encode] set, keys and
    values go through [qs_encode]; with [{ encode: false }] they are written
    as they are. *)

Definition upper_hex_digit (n : nat) : ascii :=
  match n with
  | 0 => "0" | 1 => "1" | 2 => "2" | 3 => "3" | 4 => "4" | 5 => "5"
  | 6 => "6" | 7 => "7" | 8 => "8" | 9 => "9" | 10 => "A" | 11 => "B"
  | 12 => "C" | 13 => "D" | 14 => "E" | _ => "F"
  end%char.

(** The characters [qs] leaves alone: letters, digits and [- . _ ~]. *)
Definition qs_unreserved (c : ascii) : bool :=
  let n := nat_of_ascii c in
  Nat.eqb n 45 || Nat.eqb n 46 || Nat.eqb n 95 || Nat.eqb n 126
  || (Nat.leb 48 n && Nat.leb n 57)
  || (Nat.leb 65 n && Nat.leb n 90)
  || (Nat.leb 97 n && Nat.leb n 122).

Fixpoint qs_encode (s : string) : string :=
  match s with
  | EmptyString => ""
  | String c rest =>
      (if qs_unreserved c then String c ""
       else let n := nat_of_ascii c in
            String "%" (String (upper_hex_digit (n / 16))
                          (String (upper_hex_digit (n mod 16)) "")))
      ++ qs_encode rest
  end.

Definition qs_format (encode : bool) (s : string) : string :=
  if encode then qs_encode s else s.

(** The recursive [stringify(obj, prefix, ...)] of [qs/lib/stringify.js]:
    the list of [key=value] pairs below [prefix]. *)
Fixpoint qs_pairs (encode : bool) (v : value) (prefix : string) : list string :=
  match v with
  | VUndefined => []
  | VNull => [qs_format encode prefix ++ "=" ++ qs_format encode ""]
  | VBool _ | VNum _ | VStr _ =>
      [qs_format encode prefix ++ "=" ++ qs_format encode (to_string v)]
  | VArr items =>
      (fix go (l : list value) (i : nat) : list string :=
         match l with
         | [] => []
         | x :: rest =>
             List.app
               (qs_pairs encode x
                  (prefix ++ "[" ++ number_to_string (Z.of_nat i) ++ "]"))
               (go rest (S i))
         end) items 0%nat
  | VObj fields =>
      (fix go (l : list (string * value)) : list string :=
         match l with
         | [] => []
         | kv :: rest =>
             List.app
               (qs_pairs encode (snd kv) (prefix ++ "[" ++ fst kv ++ "]"))
               (go rest)
         end) fields
  end.

(** The exported [qs.stringify(obj, { encode })]: anything that is not an
    object gives the empty string. *)
Definition qs_stringify (encode : bool) (v : value) : string :=
  match v with
  | VObj fields =>
      join "&" (flat_map (fun kv => qs_pairs encode (snd kv) (fst kv)) fields)
  | VArr items =>
      join "&"
        (flat_map (fun ix => qs_pairs encode (snd ix) (number_to_string (Z.of_nat (fst ix))))
           (combine (seq 0 (List.length items)) items))
  | _ => ""
  end.

(** ** The state of a call

    [rendered] is the list of errors passed to [utils.renderError] so far;
    [promise] is the state of the promise the running operation returns. *)

Inductive settlement : Type :=
| Pending
| Resolved (v : value)
| Rejected (reason : value).

Record state : Type := mkState {
  rendered : log;
  promise : settlement
}.

Definition M (A : Type) : Type := state -> completion A * state.

Definition ret {A} (a : A) : M A := fun s => (Normal a, s).

Definition bind {A B} (m : M A) (k : A -> M B) : M B :=
  fun s =>
    match m s with
    | (Normal a, s') => k a s'
    | (Throw e, s') => (Throw e, s')
    end.

Definition lift {A} (c : completion A) : M A := fun s => (c, s).

(** [try { body } catch (err) { handler(err) }] *)
Definition try_catch {A} (body : M A) (handler : value -> M A) : M A :=
  fun s =>
    match body s with
    | (Normal a, s') => (Normal a, s')
    | (Throw e, s') => handler e s'
    end.

Notation "x <- m ;; k" := (bind m (fun x => k))
  (at level 61, m at next level, right associativity) : js_scope.
Notation "m ;; k" := (bind m (fun _ => k))
  (at level 61, right associativity) : js_scope.

(** The effect of [utils.renderError(err)]: the error is rendered. *)
Definition log_error (err : value) : M unit :=
  fun s => (Normal tt, mkState (rendered s ++ [err])%list (promise s)).

(** ** constructAPIDef *)

(** [a || b] *)
Definition js_or (a b : value) : value := if truthy a then a else b.

(** [c ? a : undefined] *)
Definition or_undefined (a : value) : value := if truthy a then a else VUndefined.

(** [[...v]]: an array spreads into its items and a string into its
    characters; anything else is not iterable.  (A string is spread
    character by character of the model, which is JavaScript's spread by
    code point for ASCII text only.) *)
Definition spread (v : value) : completion (list value) :=
  match v with
  | VArr items => Normal items
  | VStr s => Normal (map (fun c => VStr (String c "")) (list_ascii_of_string s))
  | _ => Throw TypeError
  end.

(** Lines 164-180: the values of [backendBaseUrl] and [backendType] once
    the backend has been looked at. *)
Definition constructAPIDef_backend (apiDef : value) : completion (value * value) :=
  let* backend := get "backend" apiDef in
  let* http := get "http" backend in
  if truthy http then
    let* baseUrl := get "baseUrl" http in
    Normal (or_undefined baseUrl, VStr "HTTP")
  else
    let* jms := get "jms" backend in
    if truthy jms then
      let* destination := get "destination" jms in
      if truthy destination then
        let* parameters := get "parameters" jms in
        let backendBaseUrl := array_join [VStr "jms:"; destination] "/" in
        let backendBaseUrl :=
          array_join [VStr backendBaseUrl; VStr (qs_stringify false parameters)] "?" in
        Normal (VStr backendBaseUrl, VStr "HTTP")
      else Normal (VUndefined, VStr "HTTP")
    else Normal (VUndefined, VUndefined).

(** Lines 183-194: the [mediationPolicies] array after the pushes. *)
Definition constructAPIDef_mediationPolicies (apiDef : value) : completion (list value) :=
  let* policies := get "mediationPolicies" apiDef in
  if truthy policies then
    let* p_in := get "in" policies in
    let* p_out := get "out" policies in
    let* p_fault := get "fault" policies in
    Normal
      ((if truthy p_in then [VObj [("name", p_in); ("type", VStr "in")]] else [])
       ++ (if truthy p_out then [VObj [("name", p_out); ("type", VStr "out")]] else [])
       ++ (if truthy p_fault then [VObj [("name", p_fault); ("type", VStr "fault")]] else []))%list
  else Normal [].

(** [(spec.info && spec.info.contact && spec.info.contact.f) ?
     spec.info.contact.f : undefined] of lines 233-236. *)
Definition contact_field (f : string) (swaggerSpec : value) : completion value :=
  let* info := get "info" swaggerSpec in
  if truthy info then
    let* contact := get "contact" info in
    if truthy contact then
      let* x := get f contact in
      Normal (or_undefined x)
    else Normal VUndefined
  else Normal VUndefined.

(** The two [default WSO2 cors config] lists of [constructCorsConfiguration]. *)
Definition defaultAllowHeaders : value :=
  VArr [VStr "Authorization"; VStr "Access-Control-Allow-Origin";
        VStr "Content-Type"; VStr "SOAPAction"].

Definition defaultAllowMethods : value :=
  VArr [VStr "GET"; VStr "PUT"; VStr "POST"; VStr "DELETE"; VStr "PATCH";
        VStr "OPTIONS"].

Definition constructCorsConfiguration (apiDef : value) : completion value :=
  let* cors := get "cors" apiDef in
  let* origins := get "origins" cors in
  let* credentials := get "credentials" cors in
  let* headers := get "headers" cors in
  let* methods := get "methods" cors in
  Normal
    (VObj [("corsConfigurationEnabled", VBool true);
           ("accessControlAllowOrigins", js_or origins (VArr [VStr "*"]));
           ("accessControlAllowCredentials", js_or credentials (VBool false));
           ("accessControlAllowHeaders", js_or headers defaultAllowHeaders);
           ("accessControlAllowMethods", js_or methods defaultAllowMethods)]).

(** The object literal serialized into [endpointConfig] (lines 215-225). *)
Definition endpointConfig_object (backendBaseUrl endpoint_type : value) : value :=
  VObj [("production_endpoints", VObj [("url", backendBaseUrl); ("config", VNull)]);
        ("sandbox_endpoints", VObj [("url", backendBaseUrl); ("config", VNull)]);
        ("endpoint_type", endpoint_type)].

(** The object literal bound to [wso2ApiDefinition] (lines 196-238), as a
    function of the values of the expressions it contains. *)
Definition wso2ApiDefinition_literal
    (apiId name description rootContext version user swaggerSpec backendType : value)
    (tags : list value)
    (maxTps visibility backendBaseUrl endpointType gatewayEnv : value)
    (mediationPolicies : list value)
    (apiProperties ownerEmail ownerName : value) : list (string * value) :=
  [("id", apiId);
   ("name", name);
   ("description", description);
   ("context", rootContext);
   ("version", version);
   ("provider", user);
   ("apiDefinition", JSON_stringify swaggerSpec);
   ("status", VStr "CREATED");
   ("isDefaultVersion", VBool false);
   ("type", backendType);
   ("transport", VArr [VStr "https"]);
   ("tags", VArr (tags ++ [VStr "serverless-wso2-apim"])%list);
   ("tiers", VArr [VStr "Unlimited"]);
   ("maxTps", VObj [("sandbox", or_undefined maxTps);
                    ("production", or_undefined maxTps)]);
   ("visibility", visibility);
   ("endpointConfig",
    JSON_stringify
      (endpointConfig_object backendBaseUrl (js_or endpointType (VStr "http"))));
   ("endpointSecurity", VNull);
   ("gatewayEnvironments", gatewayEnv);
   ("sequences", VArr mediationPolicies);
   ("additionalProperties",
    if truthy apiProperties && Nat.ltb 0 (List.length (object_keys apiProperties))
    then apiProperties else VUndefined);
   ("subscriptionAvailability", VStr "current_tenant");
   ("subscriptionAvailableTenants", VArr []);
   ("businessInformation",
    VObj [("businessOwnerEmail", ownerEmail);
          ("technicalOwnerEmail", ownerEmail);
          ("technicalOwner", ownerName);
          ("businessOwner", ownerName)])].

(** The body of the [try] block (lines 163-246).  The assignments of
    lines 243-244 reset two locals that are not read again. *)
Definition constructAPIDef_body (user gatewayEnv apiDef apiId : value)
  : completion value :=
  let* bk := constructAPIDef_backend apiDef in
  let backendBaseUrl := fst bk in
  let backendType := snd bk in
  let* mediationPolicies := constructAPIDef_mediationPolicies apiDef in
  let* name := get "name" apiDef in
  let* description := get "description" apiDef in
  let* rootContext := get "rootContext" apiDef in
  let* version := get "version" apiDef in
  let* swaggerSpec := get "swaggerSpec" apiDef in
  let* tags := get "tags" apiDef in
  let* tags := spread tags in
  let* maxTps := get "maxTps" apiDef in
  let* visibility := get "visibility" apiDef in
  let* backend := get "backend" apiDef in
  let* endpointType := get "endpointType" backend in
  let* apiProperties := get "apiProperties" apiDef in
  let* ownerEmail := contact_field "email" swaggerSpec in
  let* ownerName := contact_field "name" swaggerSpec in
  let wso2ApiDefinition :=
    wso2ApiDefinition_literal apiId name description rootContext version user
      swaggerSpec backendType tags maxTps visibility backendBaseUrl endpointType
      gatewayEnv mediationPolicies apiProperties ownerEmail ownerName in
  let* cors := get "cors" apiDef in
  if truthy cors then
    let* corsConfiguration := constructCorsConfiguration apiDef in
    Normal (VObj (assign "corsConfiguration" corsConfiguration wso2ApiDefinition))
  else Normal (VObj wso2ApiDefinition).

(** [constructAPIDef]: an exception of the body is rendered and the call
    returns [undefined]. *)
Definition constructAPIDef (user gatewayEnv apiDef apiId : value) : M value :=
  try_catch (lift (constructAPIDef_body user gatewayEnv apiDef apiId))
    (fun err => log_error err ;; ret VUndefined).

(** ** The operations of the adapter

    Every operation is an [async] function that builds one request, hands
    it to [axios] and returns a promise settled by the [then] and [catch]
    callbacks.  The HTTP exchange is the parameter [axios]; what
    [utils.renderError] returns (its source is not part of this module) is
    the parameter [renderError_result], and so is [Buffer]'s base64
    encoding. *)

Record request : Type := mkRequest {
  method : string;
  url : string;
  data : value;
  config : value
}.

Inductive http_result : Type :=
| HttpOk (res : value)
| HttpErr (err : value).

(** [resolve(v)] and [reject(v)] of the promise under construction: only
    the first settlement counts. *)
Definition resolve (v : value) : M unit :=
  fun s =>
    (Normal tt,
     match promise s with
     | Pending => mkState (rendered s) (Resolved v)
     | _ => s
     end).

Definition reject (v : value) : M unit :=
  fun s =>
    (Normal tt,
     match promise s with
     | Pending => mkState (rendered s) (Rejected v)
     | _ => s
     end).

(** [call.then(onOk).catch(onErr)]: an exception thrown by [onOk] reaches
    [onErr]; one thrown by [onErr] rejects the derived promise, which
    nobody observes. *)
Definition then_catch (call : http_result) (onOk onErr : value -> M unit) : M unit :=
  fun s =>
    match call with
    | HttpOk res =>
        match onOk res s with
        | (Normal _, s') => (Normal tt, s')
        | (Throw e, s') => (Normal tt, snd (onErr e s'))
        end
    | HttpErr err => (Normal tt, snd (onErr err s))
    end.

Definition field (k : string) (v : value) : M value := lift (get k v).

(** [x == 'n'] for a string literal made of the decimal digits of [n]
    (abstract equality): a number compares with the literal's numeric value,
    a boolean first becomes [1] or [0], a string compares as text, an array
    or object through its string rendering; [undefined] and [null] equal
    neither. *)
Definition loose_eq_digits (x : value) (n : Z) : bool :=
  match x with
  | VUndefined | VNull => false
  | VBool b => ((if b then 1 else 0) =? n)%Z
  | VNum m => (m =? n)%Z
  | VStr t => t =? number_to_string n
  | VArr _ | VObj _ => to_string x =? number_to_string n
  end.

Definition httpsAgent : value := VObj [("rejectUnauthorized", VBool false)].

(** The template literal [https://${host}:${port}<api>${versionSlug}<path>]
    every operation but [generateToken] starts from. *)
Definition endpoint_url (wso2APIM : value) (api path : string) : completion string :=
  let* host := get "host" wso2APIM in
  let* port := get "port" wso2APIM in
  let* versionSlug := get "versionSlug" wso2APIM in
  Normal ("https://" ++ to_string host ++ ":" ++ to_string port ++ api
          ++ to_string versionSlug ++ path).

(** The headers object, starting with ['Bearer ' + accessToken]. *)
Definition bearer (accessToken : value) (more : list (string * value)) : value :=
  VObj (("Authorization", VStr ("Bearer " ++ to_string accessToken)) :: more).

(** [err.response.data.code], read by the three certificate operations. *)
Definition vendor_code (err : value) : completion value :=
  let* response := get "response" err in
  let* d := get "data" response in
  get "code" d.

(** [fs.createReadStream(path)]: a path that is not a string (Buffer and
    URL objects are not modelled) is refused at once with a TypeError; the
    stream is kept as the path it reads. *)
Definition createReadStream (path : value) : completion value :=
  match path with
  | VStr _ => Normal (VObj [("path", path)])
  | _ => Throw TypeError
  end.

Definition FormDataError : value :=
  VObj [("name", VStr "Error"); ("message", VStr "Arrays are not supported.")].

(** [data.append(field, v)] of the [form-data] package, on the fields
    appended so far: [undefined] and [null] make it throw a TypeError (it
    reads a property of the value), an array makes it emit an error nobody
    listens to, which is thrown as well; a number is appended as its
    text. *)
Definition FormData_append (field : string) (v : value)
    (data : list (string * value)) : completion (list (string * value)) :=
  match v with
  | VUndefined | VNull => Throw TypeError
  | VArr _ => Throw FormDataError
  | VNum n => Normal (data ++ [(field, VStr (number_to_string n))])%list
  | _ => Normal (data ++ [(field, v)])%list
  end.

Section Adapter.

Variable axios : request -> http_result.
Variable renderError_result : value -> value.
Variable base64 : string -> string.

Definition renderError (err : value) : M value :=
  log_error err ;; ret (renderError_result err).

(** An [async function] whose body is [try { ... return new Promise(...) }
    catch (err) { utils.renderError(err); }]: when the body throws before
    the promise exists, the function returns [undefined]. *)
Definition async_function (body : M unit) (l : log) : settlement * log :=
  match body (mkState l Pending) with
  | (Normal _, s) => (promise s, rendered s)
  | (Throw e, s) => (Resolved VUndefined, rendered (snd (renderError e s)))
  end.

(** The [catch] callback of most operations: render, then reject with the
    error. *)
Definition render_and_reject (err : value) : M unit :=
  renderError err ;; reject err.

(** The [catch] callback of the certificate operations that expect the
    vendor code [expected]: such an error is rejected unrendered. *)
Definition render_unless (expected : Z) (err : value) : M unit :=
  code <- lift (vendor_code err) ;;
  (if negb (loose_eq_digits code expected) then renderError err ;; ret tt
   else ret tt) ;;
  reject err.

(** [resolve(res.data)] *)
Definition resolve_data (res : value) : M unit :=
  d <- field "data" res ;; resolve d.

Definition registerClient_request (wso2APIM : value) : completion request :=
  let* url := endpoint_url wso2APIM "/client-registration/" "/register" in
  let* user := get "user" wso2APIM in
  let* pass := get "pass" wso2APIM in
  let authToken := to_string user ++ ":" ++ to_string pass in
  let authTokenBase64 := base64 authToken in
  let data :=
    VObj [("clientName", VStr "serverless-wso2-apim");
          ("owner", user);
          ("grantType", VStr "password refresh_token");
          ("saasApp", VBool true)] in
  let config :=
    VObj [("headers",
           VObj [("Authorization", VStr ("Basic " ++ authTokenBase64));
                 ("Content-Type", VStr "application/json")]);
          ("httpsAgent", httpsAgent)] in
  Normal (mkRequest "POST" url data config).

Definition registerClient (wso2APIM : value) : log -> settlement * log :=
  async_function
    (req <- lift (registerClient_request wso2APIM) ;;
     then_catch (axios req) resolve_data render_and_reject).

Definition generateToken_request (wso2APIM clientId clientSecret : value)
  : completion request :=
  let* host := get "host" wso2APIM in
  let* port := get "port" wso2APIM in
  let url := "https://" ++ to_string host ++ ":" ++ to_string port
             ++ "/oauth2/token" in
  let* user := get "user" wso2APIM in
  let* pass := get "pass" wso2APIM in
  let scope := "apim:api_create apim:api_publish apim:api_view apim:subscribe apim:tier_view apim:tier_manage apim:subscription_view apim:subscription_block" in
  let authToken := to_string clientId ++ ":" ++ to_string clientSecret in
  let authTokenBase64 := base64 authToken in
  let data :=
    VStr (qs_stringify true
            (VObj [("grant_type", VStr "password");
                   ("username", user);
                   ("password", pass);
                   ("scope", VStr scope)])) in
  let config :=
    VObj [("headers",
           VObj [("Authorization", VStr ("Basic " ++ authTokenBase64));
                 ("Content-Type", VStr "application/x-www-form-urlencoded")]);
          ("httpsAgent", httpsAgent)] in
  Normal (mkRequest "POST" url data config).

Definition generateToken (wso2APIM clientId clientSecret : value)
  : log -> settlement * log :=
  async_function
    (req <- lift (generateToken_request wso2APIM clientId clientSecret) ;;
     then_catch (axios req)
       (fun res =>
          d <- field "data" res ;;
          access_token <- field "access_token" d ;;
          resolve (VObj [("accessToken", access_token)]))
       render_and_reject).

Definition isAPIDeployed_request
    (wso2APIM accessToken apiName apiVersion apiContext : value)
  : completion request :=
  let* url := endpoint_url wso2APIM "/api/am/publisher/" "/apis" in
  let queryStr := "query=name:" ++ to_string apiName ++ " version:"
                  ++ to_string apiVersion ++ " context:"
                  ++ to_string apiContext in
  let url := url ++ "?" ++ queryStr in
  let config :=
    VObj [("headers", bearer accessToken []); ("httpsAgent", httpsAgent)] in
  Normal (mkRequest "GET" url VUndefined config).

Definition isAPIDeployed
    (wso2APIM accessToken apiName apiVersion apiContext : value)
  : log -> settlement * log :=
  async_function
    (req <- lift (isAPIDeployed_request wso2APIM accessToken apiName apiVersion
                    apiContext) ;;
     then_catch (axios req) resolve_data render_and_reject).

Definition isCertUploaded_request (wso2APIM accessToken certAlias : value)
  : completion request :=
  let* url := endpoint_url wso2APIM "/api/am/publisher/"
                ("/certificates/" ++ to_string certAlias) in
  let config :=
    VObj [("headers", bearer accessToken []); ("httpsAgent", httpsAgent)] in
  Normal (mkRequest "GET" url VUndefined config).

Definition isCertUploaded (wso2APIM accessToken certAlias : value)
  : log -> settlement * log :=
  async_function
    (req <- lift (isCertUploaded_request wso2APIM accessToken certAlias) ;;
     then_catch (axios req) resolve_data (render_unless 404)).

Definition createAPIDef_request (wso2APIM accessToken apiDef : value) : M request :=
  url <- lift (endpoint_url wso2APIM "/api/am/publisher/" "/apis") ;;
  user <- field "user" wso2APIM ;;
  gatewayEnv <- field "gatewayEnv" wso2APIM ;;
  data <- constructAPIDef user gatewayEnv apiDef VUndefined ;;
  let config :=
    VObj [("headers",
           bearer accessToken [("Content-Type", VStr "application/json")]);
          ("httpsAgent", httpsAgent)] in
  ret (mkRequest "POST" url data config).

Definition createAPIDef (wso2APIM accessToken apiDef : value)
  : log -> settlement * log :=
  async_function
    (req <- createAPIDef_request wso2APIM accessToken apiDef ;;
     then_catch (axios req)
       (fun res =>
          d <- field "data" res ;;
          id <- field "id" d ;;
          name <- field "name" d ;;
          context <- field "context" d ;;
          status <- field "status" d ;;
          resolve (VObj [("apiId", id); ("apiName", name);
                         ("apiContext", context); ("apiStatus", status)]))
       (fun err => rendering <- renderError err ;; reject rendering)).

Definition publishAPIDef_request (wso2APIM accessToken apiId : value)
  : completion request :=
  let* url := endpoint_url wso2APIM "/api/am/publisher/" "/apis/change-lifecycle" in
  let data := VObj [] in
  let config :=
    VObj [("headers", bearer accessToken []);
          ("params", VObj [("apiId", apiId); ("action", VStr "Publish")]);
          ("httpsAgent", httpsAgent)] in
  Normal (mkRequest "POST" url data config).

Definition publishAPIDef (wso2APIM accessToken apiId : value)
  : log -> settlement * log :=
  async_function
    (req <- lift (publishAPIDef_request wso2APIM accessToken apiId) ;;
     then_catch (axios req) resolve render_and_reject).

Definition listInvokableAPIUrl_request (wso2APIM accessToken apiId : value)
  : completion request :=
  let* url := endpoint_url wso2APIM "/api/am/store/"
                ("/apis/" ++ to_string apiId) in
  let config :=
    VObj [("headers", bearer accessToken []); ("httpsAgent", httpsAgent)] in
  Normal (mkRequest "GET" url VUndefined config).

Definition listInvokableAPIUrl (wso2APIM accessToken apiId : value)
  : log -> settlement * log :=
  async_function
    (req <- lift (listInvokableAPIUrl_request wso2APIM accessToken apiId) ;;
     then_catch (axios req) resolve_data render_and_reject).

Definition uploadCert_request
    (wso2APIM accessToken certAlias cert backendUrl : value)
  : completion request :=
  let* url := endpoint_url wso2APIM "/api/am/publisher/" "/certificates" in
  let* stream := createReadStream cert in
  let* data := FormData_append "certificate" stream [] in
  let* data := FormData_append "alias" certAlias data in
  let* data := FormData_append "endpoint" backendUrl data in
  let data := VObj data in
  let config :=
    VObj [("headers",
           bearer accessToken [("Content-Type", VStr "multipart/form-data")]);
          ("httpsAgent", httpsAgent)] in
  Normal (mkRequest "POST" url data config).

Definition uploadCert (wso2APIM accessToken certAlias cert backendUrl : value)
  : log -> settlement * log :=
  async_function
    (req <- lift (uploadCert_request wso2APIM accessToken certAlias cert
                    backendUrl) ;;
     then_catch (axios req) resolve (render_unless 409)).

Definition updateAPIDef_request (wso2APIM accessToken apiDef apiId : value)
  : M request :=
  url <- lift (endpoint_url wso2APIM "/api/am/publisher/"
                 ("/apis/" ++ to_string apiId)) ;;
  user <- field "user" wso2APIM ;;
  gatewayEnv <- field "gatewayEnv" wso2APIM ;;
  data <- constructAPIDef user gatewayEnv apiDef apiId ;;
  let config :=
    VObj [("headers",
           bearer accessToken [("Content-Type", VStr "application/json")]);
          ("httpsAgent", httpsAgent)] in
  ret (mkRequest "PUT" url data config).

Definition updateAPIDef (wso2APIM accessToken apiDef apiId : value)
  : log -> settlement * log :=
  async_function
    (req <- updateAPIDef_request wso2APIM accessToken apiDef apiId ;;
     then_catch (axios req) resolve_data render_and_reject).

Definition removeAPIDef_request (wso2APIM accessToken apiId : value)
  : completion request :=
  let* url := endpoint_url wso2APIM "/api/am/publisher/"
                ("/apis/" ++ to_string apiId) in
  let config :=
    VObj [("headers", bearer accessToken []); ("httpsAgent", httpsAgent)] in
  Normal (mkRequest "DELETE" url VUndefined config).

Definition removeAPIDef (wso2APIM accessToken apiId : value)
  : log -> settlement * log :=
  async_function
    (req <- lift (removeAPIDef_request wso2APIM accessToken apiId) ;;
     then_catch (axios req) resolve_data render_and_reject).

Definition removeCert_request (wso2APIM accessToken certAlias : value)
  : completion request :=
  let* url := endpoint_url wso2APIM "/api/am/publisher/"
                ("/certificates/" ++ to_string certAlias) in
  let config :=
    VObj [("headers", bearer accessToken []); ("httpsAgent", httpsAgent)] in
  Normal (mkRequest "DELETE" url VUndefined config).

Definition removeCert (wso2APIM accessToken certAlias : value)
  : log -> settlement * log :=
  async_function
    (req <- lift (removeCert_request wso2APIM accessToken certAlias) ;;
     then_catch (axios req) resolve (render_unless 404)).

Definition updateCert_request (wso2APIM accessToken certAlias cert : value)
  : completion request :=
  let* url := endpoint_url wso2APIM "/api/am/publisher/"
                ("/certificates/" ++ to_string certAlias) in
  let* stream := createReadStream cert in
  let* data := FormData_append "certificate" stream [] in
  let data := VObj data in
  let config :=
    VObj [("headers",
           bearer accessToken [("Content-Type", VStr "multipart/form-data")]);
          ("httpsAgent", httpsAgent)] in
  Normal (mkRequest "PUT" url data config).

Definition updateCert (wso2APIM accessToken certAlias cert : value)
  : log -> settlement * log :=
  async_function
    (req <- lift (updateCert_request wso2APIM accessToken certAlias cert) ;;
     then_catch (axios req) resolve render_and_reject).

Definition listCertInfo_request (wso2APIM accessToken certAlias : value)
  : completion request :=
  let* url := endpoint_url wso2APIM "/api/am/publisher/"
                ("/certificates/" ++ to_string certAlias) in
  let config :=
    VObj [("headers", bearer accessToken [("Accept", VStr "application/json")]);
          ("httpsAgent", httpsAgent)] in
  Normal (mkRequest "GET" url VUndefined config).

Definition listCertInfo (wso2APIM accessToken certAlias : value)
  : log -> settlement * log :=
  async_function
    (req <- lift (listCertInfo_request wso2APIM accessToken certAlias) ;;
     then_catch (axios req) resolve_data render_and_reject).

End Adapter.

(** ** Notions used in the statements *)

(** The value of a computation that completes normally. *)
Definition the {A} (default : A) (c : completion A) : A :=
  match c with
  | Normal a => a
  | Throw _ => default
  end.

Definition is_array (v : value) : bool :=
  match v with
  | VArr _ => true
  | _ => false
  end.

(** A well-formed logical API definition: an object whose backend
    descriptor and swagger specification are present and whose tags are an
    array. *)
Definition well_formed (apiDef : value) : bool :=
  match apiDef with
  | VObj fields =>
      negb (nullish (lookup "backend" fields))
      && is_array (lookup "tags" fields)
      && negb (nullish (lookup "swaggerSpec" fields))
  | _ => false
  end.

(** The items of an array value. *)
Definition items_of (v : value) : list value :=
  match v with
  | VArr items => items
  | _ => []
  end.

(** What a call returns on well-formed input, in terms of the values read
    from the definition. *)
Definition mapped_literal (user gatewayEnv apiDef apiId : value)
  : list (string * value) :=
  let bk := the (VUndefined, VUndefined) (constructAPIDef_backend apiDef) in
  let swaggerSpec := read "swaggerSpec" apiDef in
  wso2ApiDefinition_literal apiId (read "name" apiDef) (read "description" apiDef)
    (read "rootContext" apiDef) (read "version" apiDef) user swaggerSpec (snd bk)
    (items_of (read "tags" apiDef)) (read "maxTps" apiDef)
    (read "visibility" apiDef) (fst bk)
    (read "endpointType" (read "backend" apiDef)) gatewayEnv
    (the [] (constructAPIDef_mediationPolicies apiDef))
    (read "apiProperties" apiDef)
    (the VUndefined (contact_field "email" swaggerSpec))
    (the VUndefined (contact_field "name" swaggerSpec)).

Definition mapped_output (user gatewayEnv apiDef apiId : value)
  : list (string * value) :=
  let literal := mapped_literal user gatewayEnv apiDef apiId in
  if truthy (read "cors" apiDef) then
    assign "corsConfiguration"
      (the VUndefined (constructCorsConfiguration apiDef)) literal
  else literal.

(** A parameter value that [qs] writes as a single pair. *)
Definition is_scalar (v : value) : bool :=
  match v with
  | VBool _ | VNum _ | VStr _ => true
  | _ => false
  end.

(** The integers JavaScript holds exactly, which it prints with all their
    digits. *)
Definition safe_integer (n : Z) : bool :=
  (Z.abs n <=? 9007199254740991)%Z.

(** A string, a boolean or a safe integer. *)
Definition is_plain_scalar (v : value) : bool :=
  match v with
  | VBool _ | VStr _ => true
  | VNum n => safe_integer n
  | _ => false
  end.

(** [key=value], written as it is. *)
Definition raw_pair (kv : string * value) : string :=
  fst kv ++ "=" ++ to_string (snd kv).

(** The JMS URL as the specification words it: [jms:/D?] followed by the
    URL-encoded [key=value] pairs joined by [&]. *)
Definition spec_jms_url (D : string) (parameters : list (string * value)) : string :=
  "jms:/" ++ D ++ "?"
  ++ join "&"
       (map (fun kv => qs_encode (fst kv) ++ "=" ++ qs_encode (to_string (snd kv)))
          parameters).

(** A CORS field of the specification: the supplied value, or the default
    when the field is left unset. *)
Definition unset_default (supplied default : value) : value :=
  if nullish supplied then default else supplied.

Definition unset_or_array (v : value) : bool := nullish v || is_array v.

Definition unset_or_bool (v : value) : bool :=
  match v with
  | VUndefined | VNull | VBool _ => true
  | _ => false
  end.

(** A vendor error code [n], as a number or as its decimal text. *)
Definition code_is (n : Z) (c : value) : Prop :=
  c = VNum n \/ c = VStr (number_to_string n).

Definition is_code (c : value) : bool :=
  match c with
  | VNum _ | VStr _ => true
  | _ => false
  end.


(** A well-formed definition used to instantiate the statements below: an
    HTTP backend next to a JMS one, a CORS block with only [origins] set. *)
Definition sample_apiDef : value :=
  VObj [("name", VStr "orders");
        ("version", VStr "v1");
        ("rootContext", VStr "/orders");
        ("tags", VArr [VStr "sales"]);
        ("swaggerSpec", VObj [("openapi", VStr "3.0.0")]);
        ("backend",
         VObj [("http", VObj [("baseUrl", VStr "https://backend/orders?x=a b")]);
               ("jms", VObj [("destination", VStr "orders");
                             ("parameters", VObj [("selector", VStr "a b")])])]);
        ("cors", VObj [("origins", VArr [VStr "https://shop"])])].

(** The same definition with the JMS backend alone. *)
Definition sample_jms_apiDef : value :=
  VObj [("name", VStr "orders");
        ("tags", VArr [VStr "sales"]);
        ("swaggerSpec", VObj [("openapi", VStr "3.0.0")]);
        ("backend",
         VObj [("jms", VObj [("destination", VStr "orders");
                             ("parameters",
                              VObj [("selector", VStr "a b");
                                    ("retries", VNum 2)])])])].

Definition initial_state : state := mkState [] Pending.

(** The keys of the object literal of lines 196-238, in order. *)
Definition literal_keys : list string :=
  ["id"; "name"; "description"; "context"; "version"; "provider";
   "apiDefinition"; "status"; "isDefaultVersion"; "type"; "transport"; "tags";
   "tiers"; "maxTps"; "visibility"; "endpointConfig"; "endpointSecurity";
   "gatewayEnvironments"; "sequences"; "additionalProperties";
   "subscriptionAvailability"; "subscriptionAvailableTenants";
   "businessInformation"].

(** Reading back a JSON string literal (the inverse of [json_quote]). *)
Definition hex_value (c : ascii) : option nat :=
  let n := nat_of_ascii c in
  if Nat.leb 48 n && Nat.leb n 57 then Some (n - 48)
  else if Nat.leb 97 n && Nat.leb n 102 then Some (n - 87)
  else if Nat.leb 65 n && Nat.leb n 70 then Some (n - 55)
  else None.

Definition cons_char (c : ascii) (r : option string) : option string :=
  match r with
  | Some t => Some (String c t)
  | None => None
  end.

Fixpoint json_string_body (s : string) : option string :=
  match s with
  | EmptyString => None
  | String c rest =>
      let n := nat_of_ascii c in
      if Nat.eqb n 34 then
        match rest with
        | EmptyString => Some ""
        | _ => None
        end
      else if Nat.eqb n 92 then
        match rest with
        | EmptyString => None
        | String e rest' =>
            let m := nat_of_ascii e in
            if Nat.eqb m 34 || Nat.eqb m 92 || Nat.eqb m 47
            then cons_char e (json_string_body rest')
            else if Nat.eqb m 98 then cons_char (ascii_of_nat 8) (json_string_body rest')
            else if Nat.eqb m 102 then cons_char (ascii_of_nat 12) (json_string_body rest')
            else if Nat.eqb m 110 then cons_char (ascii_of_nat 10) (json_string_body rest')
            else if Nat.eqb m 114 then cons_char (ascii_of_nat 13) (json_string_body rest')
            else if Nat.eqb m 116 then cons_char (ascii_of_nat 9) (json_string_body rest')
            else if Nat.eqb m 117 then
              match rest' with
              | String h1 (String h2 (String h3 (String h4 rest''))) =>
                  match hex_value h1, hex_value h2, hex_value h3, hex_value h4 with
                  | Some 0, Some 0, Some a, Some b =>
                      cons_char (ascii_of_nat (16 * a + b)) (json_string_body rest'')
                  | _, _, _, _ => None
                  end
              | _ => None
              end
            else None
        end
      else if Nat.ltb n 32 then None
      else cons_char c (json_string_body rest)
  end.

Definition json_parse_string (s : string) : option string :=
  match s with
  | String c rest => if Nat.eqb (nat_of_ascii c) 34 then json_string_body rest else None
  | EmptyString => None
  end.

(** The serialized [endpointConfig], given the JSON texts of the backend
    URL and of the endpoint type. *)
Definition endpointConfig_text (url_text endpoint_type_text : string) : string :=
  "{" ++ json_quote "production_endpoints" ++ ":{"
  ++ json_quote "url" ++ ":" ++ url_text ++ "," ++ json_quote "config" ++ ":null},"
  ++ json_quote "sandbox_endpoints" ++ ":{"
  ++ json_quote "url" ++ ":" ++ url_text ++ "," ++ json_quote "config" ++ ":null},"
  ++ json_quote "endpoint_type" ++ ":" ++ endpoint_type_text ++ "}".

(** The field [k] of the object a call returned. *)
Definition returned_field (k : string) (r : completion value * state) : value :=
  match fst r with
  | Normal (VObj out) => lookup k out
  | _ => VUndefined
  end.

(** [o.k = v] on a value: an object gets the property, anything else is
    left as it is. *)
Definition write (k : string) (v : value) (o : value) : value :=
  match o with
  | VObj fields => VObj (assign k v fields)
  | _ => o
  end.

(** The definition [apiDef] with [backend.jms] replaced by [jms]. *)
Definition with_jms (jms apiDef : value) : value :=
  write "backend" (write "jms" jms (read "backend" apiDef)) apiDef.

(** The request an operation builds is [req] and the HTTP call fails with
    [err]. *)
Definition fails_with (axios : request -> http_result)
    (built : completion request) (err : value) : Prop :=
  exists req, built = Normal req /\ axios req = HttpErr err.

(** A vendor error: HTTP status and vendor code [code]. *)
Definition vendor_error (code : value) : value :=
  VObj [("message", VStr "Request failed");
        ("response",
         VObj [("status", code);
               ("data", VObj [("code", code); ("message", VStr "vendor")])])].

(** A failure without a response (the connection was refused). *)
Definition network_error : value :=
  VObj [("message", VStr "connect ECONNREFUSED"); ("code", VStr "ECONNREFUSED")].

Definition sample_wso2APIM : value :=
  VObj [("host", VStr "apim.local"); ("port", VNum 9443);
        ("versionSlug", VStr "v0.14"); ("user", VStr "admin");
        ("pass", VStr "secret"); ("gatewayEnv", VStr "Production and Sandbox")].

(** An HTTP exchange in which every call fails with [err]. *)
Definition always_failing (err : value) : request -> http_result :=
  fun _ => HttpErr err.

(** A rendering routine that returns nothing. *)
Definition render_nothing : value -> value := fun _ => VUndefined.

(** A computation that leaves the promise as it is. *)
Definition keeps_promise {A} (m : M A) : Prop :=
  forall s, promise (snd (m s)) = promise s.

(** ** Notions used in the further properties *)

(** What the spread of [[...v]] accepts. *)
Definition spreadable (v : value) : bool :=
  match v with
  | VArr _ | VStr _ => true
  | _ => false
  end.

(** The definitions the body of [constructAPIDef] gets through: a backend
    and a swagger specification that are present, tags that can be
    spread. *)
Definition mappable (apiDef : value) : bool :=
  negb (nullish apiDef)
  && negb (nullish (read "backend" apiDef))
  && spreadable (read "tags" apiDef)
  && negb (nullish (read "swaggerSpec" apiDef)).

(** The serialized [endpointConfig] when the backend URL is [undefined]:
    the [url] keys are left out. *)
Definition endpointConfig_text_no_url (endpoint_type_text : string) : string :=
  "{" ++ json_quote "production_endpoints" ++ ":{" ++ json_quote "config" ++ ":null},"
  ++ json_quote "sandbox_endpoints" ++ ":{" ++ json_quote "config" ++ ":null},"
  ++ json_quote "endpoint_type" ++ ":" ++ endpoint_type_text ++ "}".

(** A definition that declares no backend address at all. *)
Definition sample_no_backend_apiDef : value :=
  VObj [("name", VStr "orders");
        ("tags", VArr []);
        ("swaggerSpec", VObj [("openapi", VStr "3.0.0")]);
        ("backend", VObj [("endpointType", VStr "address")])].

(** A definition whose HTTP backend has no base URL. *)
Definition sample_no_baseUrl_apiDef : value :=
  VObj [("name", VStr "orders");
        ("tags", VArr []);
        ("swaggerSpec", VObj [("openapi", VStr "3.0.0")]);
        ("backend", VObj [("http", VObj [("baseUrl", VStr "")])])].

(** A JMS backend with a destination and no parameters. *)
Definition sample_jms_no_parameters_apiDef : value :=
  VObj [("name", VStr "orders");
        ("tags", VArr []);
        ("swaggerSpec", VObj [("openapi", VStr "3.0.0")]);
        ("backend", VObj [("jms", VObj [("destination", VStr "orders")])])].

(** A definition without a backend descriptor. *)
Definition sample_unmappable_apiDef : value :=
  VObj [("name", VStr "orders");
        ("tags", VArr [VStr "sales"]);
        ("swaggerSpec", VObj [("openapi", VStr "3.0.0")])].

(** The entry pushed for the mediation policy of one kind, if it is set. *)
Definition policy_entry (policies : value) (kind : string) : list value :=
  if truthy (read kind policies)
  then [VObj [("name", read kind policies); ("type", VStr kind)]]
  else [].

(** A definition that uses the optional parts: mediation policies, a
    throughput limit, additional properties and a contact. *)
Definition sample_full_apiDef : value :=
  VObj [("name", VStr "orders");
        ("tags", VArr [VStr "sales"]);
        ("swaggerSpec",
         VObj [("info",
                VObj [("contact",
                       VObj [("name", VStr "Team Orders");
                             ("email", VStr "orders@example.org")])])]);
        ("backend", VObj [("http", VObj [("baseUrl", VStr "https://backend")])]);
        ("mediationPolicies",
         VObj [("in", VStr "log-in"); ("out", VStr ""); ("fault", VStr "log-fault")]);
        ("maxTps", VNum 100);
        ("apiProperties", VObj [("team", VStr "orders")])].

(** The request an operation builds is sent and answered with [res]. *)
Definition succeeds_with (axios : request -> http_result)
    (built : completion request) (res : value) : Prop :=
  exists req, built = Normal req /\ axios req = HttpOk res.

(** An HTTP exchange in which every call is answered with [res]. *)
Definition always_answering (res : value) : request -> http_result :=
  fun _ => HttpOk res.

(** A response with a body, and one without. *)
Definition sample_response : value :=
  VObj [("status", VNum 200);
        ("data",
         VObj [("id", VStr "id-1"); ("name", VStr "orders");
               ("context", VStr "/orders"); ("status", VStr "CREATED");
               ("access_token", VStr "token")])].

Definition sample_empty_response : value := VObj [("status", VNum 204)].

(** The characters a URL-encoded text is made of: the unreserved ones and
    the percent sign. *)
Definition url_safe (c : ascii) : bool :=
  qs_unreserved c || Nat.eqb (nat_of_ascii c) 37.

Fixpoint string_forallb (f : ascii -> bool) (s : string) : bool :=
  match s with
  | EmptyString => true
  | String c rest => f c && string_forallb f rest
  end.

(** The scope [generateToken] asks for. *)
Definition token_scope : string :=
  "apim:api_create apim:api_publish apim:api_view apim:subscribe apim:tier_view apim:tier_manage apim:subscription_view apim:subscription_block".

(** A definition whose backend sets only [endpointType], to [v]. *)
Definition sample_endpointType_apiDef (v : value) : value :=
  VObj [("name", VStr "orders");
        ("tags", VArr []);
        ("swaggerSpec", VObj [("openapi", VStr "3.0.0")]);
        ("backend", VObj [("endpointType", v)])].

(** * Properties *)

Lemma truthy_not_nullish (v : value) : truthy v = true -> nullish v = false.
Proof. destruct v; simpl; congruence. Qed.

Lemma get_present (k : string) (v : value) :
  nullish v = false -> get k v = Normal (read k v).
Proof. intros H. unfold get. now rewrite H. Qed.

Lemma get_truthy (k : string) (v : value) :
  truthy v = true -> get k v = Normal (read k v).
Proof. intros H. apply get_present, truthy_not_nullish, H. Qed.

Lemma the_Normal {A} (d : A) (c : completion A) :
  (exists a, c = Normal a) -> c = Normal (the d c).
Proof. intros [a ->]. reflexivity. Qed.

Lemma backend_completes (apiDef : value) :
  nullish apiDef = false ->
  nullish (read "backend" apiDef) = false ->
  exists bk, constructAPIDef_backend apiDef = Normal bk.
Proof.
  intros Ha Hb. unfold constructAPIDef_backend.
  rewrite (get_present _ _ Ha). cbn [bindC].
  rewrite !(get_present _ _ Hb). cbn [bindC].
  destruct (truthy (read "http" (read "backend" apiDef))) eqn:Hh.
  - rewrite (get_truthy _ _ Hh). cbn [bindC]. eauto.
  - destruct (truthy (read "jms" (read "backend" apiDef))) eqn:Hj.
    + rewrite !(get_truthy _ _ Hj). cbn [bindC].
      destruct (truthy (read "destination" (read "jms" (read "backend" apiDef))));
        cbn [bindC]; eauto.
    + eauto.
Qed.

Lemma mediationPolicies_completes (apiDef : value) :
  nullish apiDef = false ->
  exists l, constructAPIDef_mediationPolicies apiDef = Normal l.
Proof.
  intros Ha. unfold constructAPIDef_mediationPolicies.
  rewrite (get_present _ _ Ha). cbn [bindC].
  destruct (truthy (read "mediationPolicies" apiDef)) eqn:Hm; [|eauto].
  rewrite !(get_truthy _ _ Hm). cbn [bindC]. eauto.
Qed.

Lemma contact_field_completes (f : string) (swaggerSpec : value) :
  nullish swaggerSpec = false ->
  exists x, contact_field f swaggerSpec = Normal x.
Proof.
  intros Hs. unfold contact_field.
  rewrite (get_present _ _ Hs). cbn [bindC].
  destruct (truthy (read "info" swaggerSpec)) eqn:Hi; [|eauto].
  rewrite (get_truthy _ _ Hi). cbn [bindC].
  destruct (truthy (read "contact" (read "info" swaggerSpec))) eqn:Hc; [|eauto].
  rewrite (get_truthy _ _ Hc). cbn [bindC]. eauto.
Qed.

Lemma constructCorsConfiguration_completes (apiDef : value) :
  nullish apiDef = false ->
  truthy (read "cors" apiDef) = true ->
  exists c, constructCorsConfiguration apiDef = Normal c.
Proof.
  intros Ha Hc. unfold constructCorsConfiguration.
  rewrite (get_present _ _ Ha). cbn [bindC].
  rewrite !(get_truthy _ _ Hc). cbn [bindC]. eauto.
Qed.

Lemma well_formed_inv (apiDef : value) :
  well_formed apiDef = true ->
  nullish apiDef = false
  /\ nullish (read "backend" apiDef) = false
  /\ (exists tags, read "tags" apiDef = VArr tags)
  /\ nullish (read "swaggerSpec" apiDef) = false.
Proof.
  destruct apiDef; simpl; try discriminate.
  intros H. apply andb_prop in H as [H Hs]. apply andb_prop in H as [Hb Ht].
  repeat split.
  - now apply negb_true_iff in Hb.
  - destruct (lookup "tags" fields); try discriminate. eauto.
  - now apply negb_true_iff in Hs.
Qed.

(** On well-formed input the body completes normally with the mapped
    object. *)
Lemma constructAPIDef_body_well_formed (user gatewayEnv apiDef apiId : value) :
  well_formed apiDef = true ->
  constructAPIDef_body user gatewayEnv apiDef apiId
  = Normal (VObj (mapped_output user gatewayEnv apiDef apiId)).
Proof.
  intros Hwf.
  destruct (well_formed_inv _ Hwf) as (Ha & Hb & [tags Ht] & Hs).
  unfold constructAPIDef_body, mapped_output, mapped_literal.
  rewrite (the_Normal (VUndefined, VUndefined) _ (backend_completes _ Ha Hb)).
  cbn [bindC the].
  rewrite (the_Normal [] _ (mediationPolicies_completes _ Ha)).
  cbn [bindC the].
  rewrite !(get_present _ _ Ha). cbn [bindC].
  rewrite Ht. cbn [spread bindC items_of].
  rewrite (get_present _ _ Hb). cbn [bindC].
  rewrite (the_Normal VUndefined _ (contact_field_completes "email" _ Hs)).
  cbn [bindC the].
  rewrite (the_Normal VUndefined _ (contact_field_completes "name" _ Hs)).
  cbn [bindC the].
  destruct (truthy (read "cors" apiDef)) eqn:Hc; [|reflexivity].
  rewrite (the_Normal VUndefined _ (constructCorsConfiguration_completes _ Ha Hc)).
  reflexivity.
Qed.

Lemma constructAPIDef_well_formed (user gatewayEnv apiDef apiId : value) (s : state) :
  well_formed apiDef = true ->
  constructAPIDef user gatewayEnv apiDef apiId s
  = (Normal (VObj (mapped_output user gatewayEnv apiDef apiId)), s).
Proof.
  intros Hwf. unfold constructAPIDef, try_catch, lift.
  now rewrite constructAPIDef_body_well_formed.
Qed.


Lemma lookup_assign_other (k k' : string) (v : value) (l : list (string * value)) :
  (k' =? k) = false -> lookup k (assign k' v l) = lookup k l.
Proof.
  intros Hk. induction l as [|[k1 v1] l IH]; simpl.
  - now rewrite Hk.
  - destruct (k1 =? k') eqn:H1; simpl.
    + apply String.eqb_eq in H1. subst k1. now rewrite Hk.
    + now rewrite IH.
Qed.

Lemma lookup_assign_same (k : string) (v : value) (l : list (string * value)) :
  lookup k (assign k v l) = v.
Proof.
  induction l as [|[k1 v1] l IH]; simpl.
  - now rewrite String.eqb_refl.
  - destruct (k1 =? k) eqn:H1; simpl.
    + now rewrite String.eqb_refl.
    + now rewrite H1.
Qed.

Lemma lookup_mapped_output (k : string) (user gatewayEnv apiDef apiId : value) :
  ("corsConfiguration" =? k) = false ->
  lookup k (mapped_output user gatewayEnv apiDef apiId)
  = lookup k (mapped_literal user gatewayEnv apiDef apiId).
Proof.
  intros Hk. unfold mapped_output.
  destruct (truthy (read "cors" apiDef)); [|reflexivity].
  now apply lookup_assign_other.
Qed.

Lemma backend_http (apiDef : value) :
  nullish apiDef = false ->
  truthy (read "http" (read "backend" apiDef)) = true ->
  constructAPIDef_backend apiDef
  = Normal (or_undefined (read "baseUrl" (read "http" (read "backend" apiDef))),
            VStr "HTTP").
Proof.
  intros Ha Hh. unfold constructAPIDef_backend.
  rewrite (get_present _ _ Ha). cbn [bindC].
  assert (Hb : nullish (read "backend" apiDef) = false).
  { destruct (read "backend" apiDef); try reflexivity; discriminate. }
  rewrite !(get_present _ _ Hb). cbn [bindC]. rewrite Hh.
  now rewrite (get_truthy _ _ Hh).
Qed.

Lemma backend_jms (apiDef : value) :
  nullish apiDef = false ->
  truthy (read "http" (read "backend" apiDef)) = false ->
  truthy (read "jms" (read "backend" apiDef)) = true ->
  truthy (read "destination" (read "jms" (read "backend" apiDef))) = true ->
  constructAPIDef_backend apiDef
  = Normal
      (VStr (array_join
               [VStr (array_join
                        [VStr "jms:";
                         read "destination" (read "jms" (read "backend" apiDef))]
                        "/");
                VStr (qs_stringify false
                        (read "parameters" (read "jms" (read "backend" apiDef))))]
               "?"),
       VStr "HTTP").
Proof.
  intros Ha Hh Hj Hd. unfold constructAPIDef_backend.
  rewrite (get_present _ _ Ha). cbn [bindC].
  assert (Hb : nullish (read "backend" apiDef) = false).
  { destruct (read "backend" apiDef); try reflexivity; discriminate. }
  rewrite !(get_present _ _ Hb). cbn [bindC]. rewrite Hh, Hj.
  rewrite !(get_truthy _ _ Hj). cbn [bindC]. now rewrite Hd.
Qed.

(** With scalar values only, [qs] writes one [key=value] pair per
    parameter, in order. *)
Lemma qs_stringify_scalars (parameters : list (string * value)) :
  forallb (fun kv => is_scalar (snd kv)) parameters = true ->
  qs_stringify false (VObj parameters) = join "&" (map raw_pair parameters).
Proof.
  intros H. unfold qs_stringify. f_equal.
  induction parameters as [|[k v] l IH]; [reflexivity|].
  simpl in H. apply andb_prop in H as [Hv Hl].
  simpl. rewrite (IH Hl).
  destruct v; try discriminate; reflexivity.
Qed.

(** ** The payload mapper *)

(** C9: on a well-formed logical API definition [constructAPIDef] returns
    normally, renders no error and leaves the state as it found it, and
    what it returns is an object carrying every key of the vendor
    definition (followed by [corsConfiguration] when a CORS block is
    declared). *)
Theorem constructAPIDef_total (user gatewayEnv apiDef apiId : value) (s : state) :
  well_formed apiDef = true ->
  exists out,
    constructAPIDef user gatewayEnv apiDef apiId s = (Normal (VObj out), s)
    /\ map fst out
       = (literal_keys
          ++ (if truthy (read "cors" apiDef) then ["corsConfiguration"] else []))%list.
Proof.
  intros Hwf. exists (mapped_output user gatewayEnv apiDef apiId). split.
  - now apply constructAPIDef_well_formed.
  - unfold mapped_output. destruct (truthy (read "cors" apiDef)); reflexivity.
Qed.

Lemma constructAPIDef_total_witness :
  exists out,
    constructAPIDef (VStr "admin") (VArr [VStr "Production and Sandbox"])
      sample_apiDef VUndefined initial_state = (Normal (VObj out), initial_state)
    /\ map fst out = (literal_keys ++ ["corsConfiguration"])%list.
Proof.
  apply (constructAPIDef_total (VStr "admin") (VArr [VStr "Production and Sandbox"])
           sample_apiDef VUndefined initial_state).
  reflexivity.
Defined.

(** C7: on a well-formed definition the output has status [CREATED],
    [isDefaultVersion] false, transport [['https']], tiers [['Unlimited']],
    subscription availability [current_tenant], no tenants to share
    subscriptions with, and the caller's tags followed by the marker tag
    [serverless-wso2-apim]. *)
Theorem constructAPIDef_fixed_fields
    (user gatewayEnv apiDef apiId : value) (s : state) (tags : list value) :
  well_formed apiDef = true ->
  read "tags" apiDef = VArr tags ->
  exists out,
    constructAPIDef user gatewayEnv apiDef apiId s = (Normal (VObj out), s)
    /\ lookup "status" out = VStr "CREATED"
    /\ lookup "isDefaultVersion" out = VBool false
    /\ lookup "transport" out = VArr [VStr "https"]
    /\ lookup "tiers" out = VArr [VStr "Unlimited"]
    /\ lookup "subscriptionAvailability" out = VStr "current_tenant"
    /\ lookup "subscriptionAvailableTenants" out = VArr []
    /\ lookup "tags" out = VArr (tags ++ [VStr "serverless-wso2-apim"])%list.
Proof.
  intros Hwf Ht. exists (mapped_output user gatewayEnv apiDef apiId).
  split; [now apply constructAPIDef_well_formed|].
  rewrite !lookup_mapped_output by reflexivity.
  unfold mapped_literal. rewrite Ht. cbn [items_of].
  repeat split; reflexivity.
Qed.

Lemma constructAPIDef_fixed_fields_witness :
  exists out,
    constructAPIDef (VStr "admin") (VStr "Production and Sandbox")
      sample_apiDef (VStr "id-1") initial_state = (Normal (VObj out), initial_state)
    /\ lookup "status" out = VStr "CREATED"
    /\ lookup "isDefaultVersion" out = VBool false
    /\ lookup "transport" out = VArr [VStr "https"]
    /\ lookup "tiers" out = VArr [VStr "Unlimited"]
    /\ lookup "subscriptionAvailability" out = VStr "current_tenant"
    /\ lookup "subscriptionAvailableTenants" out = VArr []
    /\ lookup "tags" out = VArr [VStr "sales"; VStr "serverless-wso2-apim"].
Proof.
  apply (constructAPIDef_fixed_fields (VStr "admin") (VStr "Production and Sandbox")
           sample_apiDef (VStr "id-1") initial_state [VStr "sales"]);
    reflexivity.
Defined.

Lemma string_app_assoc (a b c : string) : (a ++ b) ++ c = a ++ (b ++ c).
Proof. induction a; simpl; congruence. Qed.

Lemma json_string_body_char (c : ascii) (rest : string) :
  json_string_body (json_escape_char c ++ rest)
  = cons_char c (json_string_body rest).
Proof.
  destruct c as [b0 b1 b2 b3 b4 b5 b6 b7].
  destruct b0, b1, b2, b3, b4, b5, b6, b7; reflexivity.
Qed.

Lemma json_string_body_escape (s : string) :
  json_string_body (json_escape s ++ dquote) = Some s.
Proof.
  induction s as [|c s IH]; [reflexivity|].
  cbn [json_escape]. rewrite string_app_assoc, json_string_body_char, IH.
  reflexivity.
Qed.

(** A quoted string reads back as itself: the quoting loses nothing. *)
Lemma json_parse_string_quote (s : string) :
  json_parse_string (json_quote s) = Some s.
Proof. apply json_string_body_escape. Qed.

Lemma endpointConfig_serialized (backendBaseUrl endpoint_type : value) (u t : string) :
  json_serialize backendBaseUrl = Some u ->
  json_serialize endpoint_type = Some t ->
  JSON_stringify (endpointConfig_object backendBaseUrl endpoint_type)
  = VStr (endpointConfig_text u t).
Proof.
  intros Hu Ht. unfold JSON_stringify, endpointConfig_object, endpointConfig_text.
  cbn [json_serialize map snd fst somes join]. rewrite Hu, Ht.
  cbn [json_serialize map snd fst somes join].
  do 2 f_equal. rewrite !string_app_assoc. reflexivity.
Qed.

Lemma endpointConfig_serialized_no_url (endpoint_type : value) (t : string) :
  json_serialize endpoint_type = Some t ->
  JSON_stringify (endpointConfig_object VUndefined endpoint_type)
  = VStr (endpointConfig_text_no_url t).
Proof.
  intros Ht. unfold JSON_stringify, endpointConfig_object, endpointConfig_text_no_url.
  cbn [json_serialize map snd fst somes join]. rewrite Ht.
  cbn [json_serialize map snd fst somes join].
  reflexivity.
Qed.

Lemma endpointConfig_serialized_any (backendBaseUrl endpoint_type : value) (t : string) :
  json_serialize endpoint_type = Some t ->
  JSON_stringify (endpointConfig_object backendBaseUrl endpoint_type)
  = VStr (match json_serialize backendBaseUrl with
          | Some u => endpointConfig_text u t
          | None => endpointConfig_text_no_url t
          end).
Proof.
  intros Ht. destruct (json_serialize backendBaseUrl) as [u|] eqn:Hu.
  - now apply endpointConfig_serialized.
  - destruct backendBaseUrl as [| |[]| | | |]; try discriminate.
    now apply endpointConfig_serialized_no_url.
Qed.

Lemma json_serialize_defined (v : value) :
  v <> VUndefined -> exists t, json_serialize v = Some t.
Proof.
  destruct v as [| |[]| | | |]; intros H; try (now eexists; reflexivity).
  now contradiction H.
Qed.

Lemma js_or_http_defined (endpointType : value) :
  js_or endpointType (VStr "http") <> VUndefined.
Proof.
  unfold js_or. destruct (truthy endpointType) eqn:Ht; [|discriminate].
  intros ->. discriminate.
Qed.

Lemma truthy_VStr (u : string) : u <> "" -> truthy (VStr u) = true.
Proof. intros H. simpl. apply negb_true_iff, String.eqb_neq, H. Qed.

Lemma read_VStr_truthy (k : string) (o : value) (u : string) :
  read k o = VStr u -> u <> "" -> truthy o = true.
Proof.
  intros H Hu. destruct o; try reflexivity; simpl in H; try discriminate.
  all: inversion H; subst; now contradiction Hu.
Qed.

(** C5: with an HTTP backend that has a base URL, the output's [type] is
    [HTTP] and the serialized endpoint configuration carries the base URL,
    quoted as a JSON string that reads back as the very same text, as the
    URL of both the production and the sandbox endpoints. *)
Theorem constructAPIDef_http_backend
    (user gatewayEnv apiDef apiId : value) (s : state) (baseUrl : string) :
  well_formed apiDef = true ->
  read "baseUrl" (read "http" (read "backend" apiDef)) = VStr baseUrl ->
  baseUrl <> "" ->
  exists out endpoint_type,
    constructAPIDef user gatewayEnv apiDef apiId s = (Normal (VObj out), s)
    /\ lookup "type" out = VStr "HTTP"
    /\ lookup "endpointConfig" out
       = JSON_stringify
           (VObj [("production_endpoints",
                   VObj [("url", VStr baseUrl); ("config", VNull)]);
                  ("sandbox_endpoints",
                   VObj [("url", VStr baseUrl); ("config", VNull)]);
                  ("endpoint_type", endpoint_type)])
    /\ (exists t,
          json_serialize endpoint_type = Some t
          /\ lookup "endpointConfig" out
             = VStr (endpointConfig_text (json_quote baseUrl) t))
    /\ json_parse_string (json_quote baseUrl) = Some baseUrl.
Proof.
  intros Hwf Hu Hne.
  destruct (well_formed_inv _ Hwf) as (Ha & _).
  pose proof (read_VStr_truthy _ _ _ Hu Hne) as Hh.
  exists (mapped_output user gatewayEnv apiDef apiId),
    (js_or (read "endpointType" (read "backend" apiDef)) (VStr "http")).
  split; [now apply constructAPIDef_well_formed|].
  rewrite !lookup_mapped_output by reflexivity.
  unfold mapped_literal. rewrite (backend_http _ Ha Hh), Hu.
  unfold or_undefined. rewrite (truthy_VStr _ Hne). cbn [the fst snd].
  split; [reflexivity|]. split; [reflexivity|]. split.
  - destruct (json_serialize_defined _
                (js_or_http_defined (read "endpointType" (read "backend" apiDef))))
      as [t Ht].
    exists t. split; [exact Ht|].
    cbn [wso2ApiDefinition_literal lookup String.eqb Ascii.eqb Bool.eqb].
    now apply endpointConfig_serialized.
  - apply json_parse_string_quote.
Qed.

Lemma constructAPIDef_http_backend_witness :
  exists out endpoint_type,
    constructAPIDef (VStr "admin") (VStr "Production and Sandbox") sample_apiDef
      VUndefined initial_state = (Normal (VObj out), initial_state)
    /\ lookup "type" out = VStr "HTTP"
    /\ lookup "endpointConfig" out
       = JSON_stringify
           (VObj [("production_endpoints",
                   VObj [("url", VStr "https://backend/orders?x=a b");
                         ("config", VNull)]);
                  ("sandbox_endpoints",
                   VObj [("url", VStr "https://backend/orders?x=a b");
                         ("config", VNull)]);
                  ("endpoint_type", endpoint_type)])
    /\ (exists t,
          json_serialize endpoint_type = Some t
          /\ lookup "endpointConfig" out
             = VStr (endpointConfig_text (json_quote "https://backend/orders?x=a b") t))
    /\ json_parse_string (json_quote "https://backend/orders?x=a b")
       = Some "https://backend/orders?x=a b".
Proof.
  apply (constructAPIDef_http_backend (VStr "admin") (VStr "Production and Sandbox")
           sample_apiDef VUndefined initial_state "https://backend/orders?x=a b").
  - reflexivity.
  - reflexivity.
  - discriminate.
Defined.



(** C10, as the claim states it, fails: a definition whose
    [backend.endpointType] is set to the empty string, or to [0], gets the
    endpoint type ['http'] in its serialized endpoint configuration, not
    the value that was supplied. *)
Lemma constructAPIDef_endpoint_type_set_but_falsy :
  returned_field "endpointConfig"
    (constructAPIDef (VStr "admin") (VStr "Production and Sandbox")
       (sample_endpointType_apiDef (VStr "")) VUndefined initial_state)
  = VStr (endpointConfig_text_no_url (json_quote "http"))
  /\ returned_field "endpointConfig"
       (constructAPIDef (VStr "admin") (VStr "Production and Sandbox")
          (sample_endpointType_apiDef (VStr "")) VUndefined initial_state)
     <> VStr (endpointConfig_text_no_url (json_quote ""))
  /\ returned_field "endpointConfig"
       (constructAPIDef (VStr "admin") (VStr "Production and Sandbox")
          (sample_endpointType_apiDef (VNum 0)) VUndefined initial_state)
     = VStr (endpointConfig_text_no_url (json_quote "http"))
  /\ returned_field "endpointConfig"
       (constructAPIDef (VStr "admin") (VStr "Production and Sandbox")
          (sample_endpointType_apiDef (VNum 0)) VUndefined initial_state)
     <> VStr (endpointConfig_text_no_url "0")
  /\ has_key "endpointType"
       [("endpointType", VStr "")] = true.
Proof.
  split; [reflexivity|]. split; [vm_compute; discriminate|].
  split; [reflexivity|]. split; [vm_compute; discriminate|]. reflexivity.
Qed.

Lemma js_or_unset_array (v d : value) :
  unset_or_array v = true -> js_or v d = unset_default v d.
Proof. destruct v; try discriminate; reflexivity. Qed.

Lemma js_or_unset_bool (v : value) :
  unset_or_bool v = true -> js_or v (VBool false) = unset_default v (VBool false).
Proof. destruct v as [| |[]| | | |]; try discriminate; reflexivity. Qed.

(** C4: on a well-formed definition, a declared CORS block (whose origins,
    headers and methods are arrays and whose credentials is a boolean,
    where set) gives a [corsConfiguration] with [corsConfigurationEnabled]
    true and, field by field, the supplied value or the vendor default:
    [['*']] for the origins, [false] for the credentials, the four headers
    [Authorization], [Access-Control-Allow-Origin], [Content-Type],
    [SOAPAction] and the six methods [GET], [PUT], [POST], [DELETE],
    [PATCH], [OPTIONS]; with no CORS block the output has no
    [corsConfiguration] key. *)
Theorem constructAPIDef_cors
    (user gatewayEnv apiDef apiId : value) (s : state) :
  well_formed apiDef = true ->
  exists out,
    constructAPIDef user gatewayEnv apiDef apiId s = (Normal (VObj out), s)
    /\ (truthy (read "cors" apiDef) = false ->
        has_key "corsConfiguration" out = false)
    /\ (forall cors,
          read "cors" apiDef = VObj cors ->
          unset_or_array (lookup "origins" cors) = true ->
          unset_or_bool (lookup "credentials" cors) = true ->
          unset_or_array (lookup "headers" cors) = true ->
          unset_or_array (lookup "methods" cors) = true ->
          lookup "corsConfiguration" out
          = VObj [("corsConfigurationEnabled", VBool true);
                  ("accessControlAllowOrigins",
                   unset_default (lookup "origins" cors) (VArr [VStr "*"]));
                  ("accessControlAllowCredentials",
                   unset_default (lookup "credentials" cors) (VBool false));
                  ("accessControlAllowHeaders",
                   unset_default (lookup "headers" cors)
                     (VArr [VStr "Authorization";
                            VStr "Access-Control-Allow-Origin";
                            VStr "Content-Type"; VStr "SOAPAction"]));
                  ("accessControlAllowMethods",
                   unset_default (lookup "methods" cors)
                     (VArr [VStr "GET"; VStr "PUT"; VStr "POST"; VStr "DELETE";
                            VStr "PATCH"; VStr "OPTIONS"]))]).
Proof.
  intros Hwf.
  destruct (well_formed_inv _ Hwf) as (Ha & _).
  exists (mapped_output user gatewayEnv apiDef apiId).
  split; [now apply constructAPIDef_well_formed|]. split.
  - intros Hc. unfold mapped_output. rewrite Hc. reflexivity.
  - intros cors Hc Ho Hcr Hh Hm. unfold mapped_output.
    rewrite Hc. cbn [truthy]. rewrite lookup_assign_same.
    unfold constructCorsConfiguration.
    rewrite (get_present _ _ Ha), Hc. cbn [bindC get nullish read the].
    rewrite (js_or_unset_array _ _ Ho), (js_or_unset_bool _ Hcr),
      (js_or_unset_array _ _ Hh), (js_or_unset_array _ _ Hm).
    reflexivity.
Qed.

Lemma constructAPIDef_cors_witness :
  exists out,
    constructAPIDef (VStr "admin") (VStr "Production and Sandbox") sample_apiDef
      VUndefined initial_state = (Normal (VObj out), initial_state)
    /\ lookup "corsConfiguration" out
       = VObj [("corsConfigurationEnabled", VBool true);
               ("accessControlAllowOrigins", VArr [VStr "https://shop"]);
               ("accessControlAllowCredentials", VBool false);
               ("accessControlAllowHeaders",
                VArr [VStr "Authorization"; VStr "Access-Control-Allow-Origin";
                      VStr "Content-Type"; VStr "SOAPAction"]);
               ("accessControlAllowMethods",
                VArr [VStr "GET"; VStr "PUT"; VStr "POST"; VStr "DELETE";
                      VStr "PATCH"; VStr "OPTIONS"])].
Proof.
  destruct (constructAPIDef_cors (VStr "admin") (VStr "Production and Sandbox")
              sample_apiDef VUndefined initial_state eq_refl)
    as (out & Hout & _ & Hcors).
  exists out. split; [exact Hout|].
  apply (Hcors [("origins", VArr [VStr "https://shop"])]); reflexivity.
Defined.

Lemma plain_scalars_scalars (parameters : list (string * value)) :
  forallb (fun kv => is_plain_scalar (snd kv)) parameters = true ->
  forallb (fun kv => is_scalar (snd kv)) parameters = true.
Proof.
  induction parameters as [|[k v] l IH]; [reflexivity|].
  simpl. intros H. apply andb_prop in H as [Hv Hl].
  rewrite (IH Hl), andb_true_r. destruct v; try discriminate; reflexivity.
Qed.

(** C1, as amended: with a JMS backend (no HTTP one) whose destination is
    [D] and whose parameters are a map of strings, booleans and safe
    integers, the backend URL is [jms:/D?] followed by the [key=value]
    pairs in order, joined by [&] and written as they are, without URL
    encoding.  It is the [url] of both endpoints in the object that is
    serialized into [endpointConfig]; the serialized text carries it as a
    JSON string that reads back as the same URL; the output's [type] is
    [HTTP]. *)
Theorem constructAPIDef_jms_backend
    (user gatewayEnv apiDef apiId : value) (s : state)
    (D : string) (parameters : list (string * value)) :
  well_formed apiDef = true ->
  truthy (read "http" (read "backend" apiDef)) = false ->
  read "destination" (read "jms" (read "backend" apiDef)) = VStr D ->
  D <> "" ->
  read "parameters" (read "jms" (read "backend" apiDef)) = VObj parameters ->
  forallb (fun kv => is_plain_scalar (snd kv)) parameters = true ->
  let jms_url := "jms:/" ++ D ++ "?" ++ join "&" (map raw_pair parameters) in
  exists out endpoint_type,
    constructAPIDef user gatewayEnv apiDef apiId s = (Normal (VObj out), s)
    /\ lookup "type" out = VStr "HTTP"
    /\ lookup "endpointConfig" out
       = JSON_stringify
           (VObj [("production_endpoints",
                   VObj [("url", VStr jms_url); ("config", VNull)]);
                  ("sandbox_endpoints",
                   VObj [("url", VStr jms_url); ("config", VNull)]);
                  ("endpoint_type", endpoint_type)])
    /\ (exists t,
          json_serialize endpoint_type = Some t
          /\ lookup "endpointConfig" out
             = VStr (endpointConfig_text (json_quote jms_url) t))
    /\ json_parse_string (json_quote jms_url) = Some jms_url.
Proof.
  intros Hwf Hh Hd Hne Hp Hsc jms_url.
  destruct (well_formed_inv _ Hwf) as (Ha & _).
  pose proof (read_VStr_truthy _ _ _ Hd Hne) as Hj.
  exists (mapped_output user gatewayEnv apiDef apiId),
    (js_or (read "endpointType" (read "backend" apiDef)) (VStr "http")).
  split; [now apply constructAPIDef_well_formed|].
  rewrite !lookup_mapped_output by reflexivity.
  unfold mapped_literal. rewrite (backend_jms _ Ha Hh Hj).
  2: { rewrite Hd. now apply truthy_VStr. }
  rewrite Hd, Hp, (qs_stringify_scalars _ (plain_scalars_scalars _ Hsc)).
  cbn [the fst snd].
  split; [reflexivity|]. split; [reflexivity|]. split.
  - destruct (json_serialize_defined _
                (js_or_http_defined (read "endpointType" (read "backend" apiDef))))
      as [t Ht].
    exists t. split; [exact Ht|].
    cbn [wso2ApiDefinition_literal lookup String.eqb Ascii.eqb Bool.eqb].
    now apply endpointConfig_serialized.
  - apply json_parse_string_quote.
Qed.

Lemma constructAPIDef_jms_backend_witness :
  exists out endpoint_type,
    constructAPIDef (VStr "admin") (VStr "Production and Sandbox")
      sample_jms_apiDef VUndefined initial_state
    = (Normal (VObj out), initial_state)
    /\ lookup "type" out = VStr "HTTP"
    /\ lookup "endpointConfig" out
       = JSON_stringify
           (VObj [("production_endpoints",
                   VObj [("url", VStr "jms:/orders?selector=a b&retries=2");
                         ("config", VNull)]);
                  ("sandbox_endpoints",
                   VObj [("url", VStr "jms:/orders?selector=a b&retries=2");
                         ("config", VNull)]);
                  ("endpoint_type", endpoint_type)])
    /\ (exists t,
          json_serialize endpoint_type = Some t
          /\ lookup "endpointConfig" out
             = VStr (endpointConfig_text
                       (json_quote "jms:/orders?selector=a b&retries=2") t))
    /\ json_parse_string (json_quote "jms:/orders?selector=a b&retries=2")
       = Some "jms:/orders?selector=a b&retries=2".
Proof.
  apply (constructAPIDef_jms_backend (VStr "admin") (VStr "Production and Sandbox")
           sample_jms_apiDef VUndefined initial_state "orders"
           [("selector", VStr "a b"); ("retries", VNum 2)]).
  - reflexivity.
  - reflexivity.
  - reflexivity.
  - discriminate.
  - reflexivity.
  - reflexivity.
Defined.

(** C1, as the specification states it, fails: for the destination
    [orders] and the parameters [{selector: 'a b', retries: 2}] the
    endpoint configuration carries [jms:/orders?selector=a b&retries=2],
    not the URL-encoded [jms:/orders?selector=a%20b&retries=2]. *)
Lemma constructAPIDef_jms_not_url_encoded :
  returned_field "endpointConfig"
    (constructAPIDef (VStr "admin") (VStr "Production and Sandbox")
       sample_jms_apiDef VUndefined initial_state)
  = JSON_stringify
      (endpointConfig_object (VStr "jms:/orders?selector=a b&retries=2")
         (VStr "http"))
  /\ spec_jms_url "orders" [("selector", VStr "a b"); ("retries", VNum 2)]
     = "jms:/orders?selector=a%20b&retries=2"
  /\ returned_field "endpointConfig"
       (constructAPIDef (VStr "admin") (VStr "Production and Sandbox")
          sample_jms_apiDef VUndefined initial_state)
     <> JSON_stringify
          (endpointConfig_object
             (VStr (spec_jms_url "orders"
                      [("selector", VStr "a b"); ("retries", VNum 2)]))
             (VStr "http")).
Proof.
  split; [reflexivity|]. split; [reflexivity|].
  vm_compute. discriminate.
Qed.

Lemma read_write_other (k k' : string) (v o : value) :
  (k' =? k) = false -> read k (write k' v o) = read k o.
Proof.
  intros Hk. destruct o; try reflexivity. simpl. now apply lookup_assign_other.
Qed.

Lemma read_write_same (k : string) (v : value) (fields : list (string * value)) :
  read k (write k v (VObj fields)) = v.
Proof. simpl. apply lookup_assign_same. Qed.

Lemma nullish_write (k : string) (v o : value) : nullish (write k v o) = nullish o.
Proof. destruct o; reflexivity. Qed.

Lemma get_write_other (k k' : string) (v o : value) :
  (k' =? k) = false -> get k (write k' v o) = get k o.
Proof.
  intros Hk. unfold get. now rewrite nullish_write, read_write_other.
Qed.

Lemma mediationPolicies_write_backend (b apiDef : value) :
  constructAPIDef_mediationPolicies (write "backend" b apiDef)
  = constructAPIDef_mediationPolicies apiDef.
Proof.
  unfold constructAPIDef_mediationPolicies.
  now rewrite get_write_other by reflexivity.
Qed.

Lemma constructCorsConfiguration_write_backend (b apiDef : value) :
  constructCorsConfiguration (write "backend" b apiDef)
  = constructCorsConfiguration apiDef.
Proof.
  unfold constructCorsConfiguration.
  now rewrite get_write_other by reflexivity.
Qed.

(** Replacing the JMS descriptor of a definition whose HTTP backend is set
    changes nothing in what is mapped. *)
Lemma mapped_output_with_jms (user gatewayEnv apiDef apiId jms : value) :
  nullish apiDef = false ->
  truthy (read "http" (read "backend" apiDef)) = true ->
  mapped_output user gatewayEnv (with_jms jms apiDef) apiId
  = mapped_output user gatewayEnv apiDef apiId.
Proof.
  intros Ha Hh.
  destruct apiDef as [| | | | | |fields]; try discriminate.
  destruct (read "backend" (VObj fields)) as [| | | | | |bfields] eqn:Hb;
    try discriminate.
  assert (Hb' : read "backend" (with_jms jms (VObj fields))
                = write "jms" jms (VObj bfields)).
  { unfold with_jms. rewrite Hb. apply read_write_same. }
  assert (Hh' : truthy (read "http" (read "backend" (with_jms jms (VObj fields))))
                = true).
  { rewrite Hb', read_write_other by reflexivity. exact Hh. }
  unfold mapped_output, mapped_literal.
  rewrite (backend_http (with_jms jms (VObj fields)) eq_refl Hh').
  rewrite (backend_http (VObj fields) eq_refl).
  2: { rewrite Hb. exact Hh. }
  rewrite Hb', Hb. rewrite !(read_write_other _ "jms") by reflexivity.
  unfold with_jms. rewrite Hb.
  rewrite mediationPolicies_write_backend, constructCorsConfiguration_write_backend.
  rewrite !(read_write_other _ "backend") by reflexivity.
  reflexivity.
Qed.

Lemma well_formed_with_jms (apiDef jms : value) :
  well_formed apiDef = true ->
  truthy (read "http" (read "backend" apiDef)) = true ->
  well_formed (with_jms jms apiDef) = true.
Proof.
  intros Hwf Hh.
  destruct apiDef as [| | | | | |fields]; try discriminate.
  destruct (read "backend" (VObj fields)) as [| | | | | |bfields] eqn:Hb;
    try discriminate.
  unfold with_jms. rewrite Hb.
  cbn [write well_formed] in *.
  rewrite lookup_assign_same.
  rewrite !(lookup_assign_other _ "backend") by reflexivity.
  cbn [nullish negb andb]. apply andb_prop in Hwf as [Hwf Hs].
  apply andb_prop in Hwf as [_ Ht]. now rewrite Ht, Hs.
Qed.

(** C8: when both an HTTP and a JMS backend are present the call does not
    fail and the output's [type] is [HTTP].  A base URL that is set is the
    [url] of both endpoints in the serialized endpoint configuration (a
    string one as a JSON string that reads back as itself); when the HTTP
    backend has no base URL the endpoints have no [url], and the JMS
    destination is not used in its place.  The JMS descriptor has no
    influence on the output: any other value in its place, none at all
    included, gives the same result. *)
Theorem constructAPIDef_prefers_http
    (user gatewayEnv apiDef apiId : value) (s : state) :
  well_formed apiDef = true ->
  truthy (read "http" (read "backend" apiDef)) = true ->
  truthy (read "jms" (read "backend" apiDef)) = true ->
  exists out endpoint_type t,
    constructAPIDef user gatewayEnv apiDef apiId s = (Normal (VObj out), s)
    /\ lookup "type" out = VStr "HTTP"
    /\ json_serialize endpoint_type = Some t
    /\ (forall url_text,
          truthy (read "baseUrl" (read "http" (read "backend" apiDef))) = true ->
          json_serialize (read "baseUrl" (read "http" (read "backend" apiDef)))
          = Some url_text ->
          lookup "endpointConfig" out = VStr (endpointConfig_text url_text t))
    /\ (forall baseUrl,
          read "baseUrl" (read "http" (read "backend" apiDef)) = VStr baseUrl ->
          baseUrl <> "" ->
          lookup "endpointConfig" out
          = JSON_stringify
              (VObj [("production_endpoints",
                      VObj [("url", VStr baseUrl); ("config", VNull)]);
                     ("sandbox_endpoints",
                      VObj [("url", VStr baseUrl); ("config", VNull)]);
                     ("endpoint_type", endpoint_type)])
          /\ lookup "endpointConfig" out
             = VStr (endpointConfig_text (json_quote baseUrl) t)
          /\ json_parse_string (json_quote baseUrl) = Some baseUrl)
    /\ (truthy (read "baseUrl" (read "http" (read "backend" apiDef))) = false ->
        lookup "endpointConfig" out = VStr (endpointConfig_text_no_url t))
    /\ (forall jms,
          constructAPIDef user gatewayEnv (with_jms jms apiDef) apiId s
          = (Normal (VObj out), s)).
Proof.
  intros Hwf Hh _.
  destruct (well_formed_inv _ Hwf) as (Ha & _).
  destruct (json_serialize_defined _
              (js_or_http_defined (read "endpointType" (read "backend" apiDef))))
    as [t Ht].
  set (endpoint_type := js_or (read "endpointType" (read "backend" apiDef))
                          (VStr "http")) in *.
  set (out := mapped_output user gatewayEnv apiDef apiId).
  assert (Htype : lookup "type" out = VStr "HTTP").
  { unfold out. rewrite lookup_mapped_output by reflexivity.
    unfold mapped_literal. now rewrite (backend_http _ Ha Hh). }
  assert (Hcfg : lookup "endpointConfig" out
                 = JSON_stringify
                     (endpointConfig_object
                        (or_undefined
                           (read "baseUrl" (read "http" (read "backend" apiDef))))
                        endpoint_type)).
  { unfold out. rewrite lookup_mapped_output by reflexivity.
    unfold mapped_literal. now rewrite (backend_http _ Ha Hh). }
  exists out, endpoint_type, t.
  split; [now apply constructAPIDef_well_formed|].
  split; [exact Htype|]. split; [exact Ht|]. split; [|split; [|split]].
  - intros url_text Hu Hs. rewrite Hcfg, (endpointConfig_serialized_any _ _ _ Ht).
    unfold or_undefined. now rewrite Hu, Hs.
  - intros baseUrl Hu Hne. rewrite Hcfg, Hu. unfold or_undefined.
    rewrite (truthy_VStr _ Hne).
    split; [reflexivity|]. split; [|apply json_parse_string_quote].
    now apply endpointConfig_serialized.
  - intros Hu. rewrite Hcfg, (endpointConfig_serialized_any _ _ _ Ht).
    unfold or_undefined. now rewrite Hu.
  - intros jms.
    rewrite (constructAPIDef_well_formed _ _ _ _ _ (well_formed_with_jms _ jms Hwf Hh)).
    unfold out. now rewrite mapped_output_with_jms.
Qed.

Lemma constructAPIDef_prefers_http_witness :
  exists out endpoint_type t,
    constructAPIDef (VStr "admin") (VStr "Production and Sandbox") sample_apiDef
      VUndefined initial_state = (Normal (VObj out), initial_state)
    /\ lookup "type" out = VStr "HTTP"
    /\ json_serialize endpoint_type = Some t
    /\ lookup "endpointConfig" out
       = JSON_stringify
           (VObj [("production_endpoints",
                   VObj [("url", VStr "https://backend/orders?x=a b");
                         ("config", VNull)]);
                  ("sandbox_endpoints",
                   VObj [("url", VStr "https://backend/orders?x=a b");
                         ("config", VNull)]);
                  ("endpoint_type", endpoint_type)])
    /\ lookup "endpointConfig" out
       = VStr (endpointConfig_text (json_quote "https://backend/orders?x=a b") t)
    /\ json_parse_string (json_quote "https://backend/orders?x=a b")
       = Some "https://backend/orders?x=a b"
    /\ (forall jms,
          constructAPIDef (VStr "admin") (VStr "Production and Sandbox")
            (with_jms jms sample_apiDef) VUndefined initial_state
          = (Normal (VObj out), initial_state)).
Proof.
  destruct (constructAPIDef_prefers_http (VStr "admin")
              (VStr "Production and Sandbox") sample_apiDef VUndefined
              initial_state eq_refl eq_refl eq_refl)
    as (out & endpoint_type & t & Hout & Htype & Ht & _ & Hurl & _ & Hjms).
  exists out, endpoint_type, t.
  destruct (Hurl "https://backend/orders?x=a b" eq_refl) as (Hobj & Htext & Hback).
  { discriminate. }
  repeat split; assumption.
Defined.




(** ** The operations *)

Section AdapterProperties.

Variable axios : request -> http_result.
Variable renderError_result : value -> value.

(** An operation whose [catch] callback is [render_and_reject] rejects with
    the error and renders it once. *)
Lemma render_and_reject_operation
    (built : completion request) (onOk : value -> M unit) (err : value) (l : log) :
  fails_with axios built err ->
  async_function renderError_result
    (req <- lift built ;;
     then_catch (axios req) onOk (render_and_reject renderError_result)) l
  = (Rejected err, (l ++ [err])%list).
Proof.
  intros (req & -> & Herr).
  unfold async_function, bind, lift, then_catch. rewrite Herr. reflexivity.
Qed.

(** An operation whose [catch] callback is [render_unless expected] rejects
    with the error, and renders it unless its vendor code is the expected
    one. *)
Lemma render_unless_operation
    (expected : Z) (built : completion request) (onOk : value -> M unit)
    (err code : value) (l : log) :
  fails_with axios built err ->
  vendor_code err = Normal code ->
  async_function renderError_result
    (req <- lift built ;;
     then_catch (axios req) onOk (render_unless renderError_result expected)) l
  = (Rejected err,
     if loose_eq_digits code expected then l else (l ++ [err])%list).
Proof.
  intros (req & -> & Herr) Hcode.
  unfold async_function, bind, lift, then_catch, render_unless, bind, lift.
  rewrite Herr, Hcode.
  destruct (loose_eq_digits code expected); reflexivity.
Qed.

(** Without a response on the error the [catch] callback itself throws and
    the promise is never settled. *)
Lemma render_unless_operation_no_response
    (expected : Z) (built : completion request) (onOk : value -> M unit)
    (err : value) (l : log) :
  fails_with axios built err ->
  read "response" err = VUndefined ->
  nullish err = false ->
  async_function renderError_result
    (req <- lift built ;;
     then_catch (axios req) onOk (render_unless renderError_result expected)) l
  = (Pending, l).
Proof.
  intros (req & -> & Herr) Hresp Hn.
  unfold async_function, bind, lift, then_catch, render_unless, bind, lift,
    vendor_code.
  rewrite Herr, (get_present _ _ Hn), Hresp. reflexivity.
Qed.

End AdapterProperties.

Lemma loose_eq_digits_code (code : value) (n : Z) :
  is_code code = true ->
  loose_eq_digits code n = true <-> code_is n code.
Proof.
  intros Hc. unfold code_is. destruct code; try discriminate; simpl.
  - rewrite Z.eqb_eq. split.
    + intros ->. now left.
    + intros [H|H]; [now inversion H | discriminate].
  - rewrite String.eqb_eq. split.
    + intros ->. now right.
    + intros [H|H]; [discriminate | now inversion H].
Qed.

(** C3: when the failed call carries a vendor error code (a number or its
    text), [isCertUploaded] and [removeCert] on code 404 and [uploadCert]
    on code 409 reject with the error and render nothing; on any other
    code each of them renders the error exactly once and rejects with it. *)
Theorem certificate_operations_expected_codes
    (axios : request -> http_result) (renderError_result : value -> value)
    (wso2APIM accessToken certAlias cert backendUrl err code : value) (l : log) :
  vendor_code err = Normal code ->
  is_code code = true ->
  (fails_with axios (isCertUploaded_request wso2APIM accessToken certAlias) err ->
   (code_is 404 code ->
    isCertUploaded axios renderError_result wso2APIM accessToken certAlias l
    = (Rejected err, l))
   /\ (~ code_is 404 code ->
       isCertUploaded axios renderError_result wso2APIM accessToken certAlias l
       = (Rejected err, (l ++ [err])%list)))
  /\ (fails_with axios (removeCert_request wso2APIM accessToken certAlias) err ->
      (code_is 404 code ->
       removeCert axios renderError_result wso2APIM accessToken certAlias l
       = (Rejected err, l))
      /\ (~ code_is 404 code ->
          removeCert axios renderError_result wso2APIM accessToken certAlias l
          = (Rejected err, (l ++ [err])%list)))
  /\ (fails_with axios
        (uploadCert_request wso2APIM accessToken certAlias cert backendUrl) err ->
      (code_is 409 code ->
       uploadCert axios renderError_result wso2APIM accessToken certAlias cert
         backendUrl l
       = (Rejected err, l))
      /\ (~ code_is 409 code ->
          uploadCert axios renderError_result wso2APIM accessToken certAlias cert
            backendUrl l
          = (Rejected err, (l ++ [err])%list))).
Proof.
  intros Hcode Hc.
  pose proof (loose_eq_digits_code code 404 Hc) as H404.
  pose proof (loose_eq_digits_code code 409 Hc) as H409.
  split; [|split]; intros Hf; split; intros Hk.
  1, 2: unfold isCertUploaded.
  3, 4: unfold removeCert.
  5, 6: unfold uploadCert.
  all: rewrite (render_unless_operation _ _ _ _ _ err code l Hf Hcode).
  - apply H404 in Hk. now rewrite Hk.
  - destruct (loose_eq_digits code 404) eqn:E; [|reflexivity].
    exfalso. apply Hk, H404. reflexivity.
  - apply H404 in Hk. now rewrite Hk.
  - destruct (loose_eq_digits code 404) eqn:E; [|reflexivity].
    exfalso. apply Hk, H404. reflexivity.
  - apply H409 in Hk. now rewrite Hk.
  - destruct (loose_eq_digits code 409) eqn:E; [|reflexivity].
    exfalso. apply Hk, H409. reflexivity.
Qed.

Lemma certificate_operations_expected_codes_witness :
  isCertUploaded (always_failing (vendor_error (VNum 404))) render_nothing
    sample_wso2APIM (VStr "token") (VStr "backend-cert") []
  = (Rejected (vendor_error (VNum 404)), [])
  /\ removeCert (always_failing (vendor_error (VNum 404))) render_nothing
       sample_wso2APIM (VStr "token") (VStr "backend-cert") []
     = (Rejected (vendor_error (VNum 404)), [])
  /\ uploadCert (always_failing (vendor_error (VNum 404))) render_nothing
       sample_wso2APIM (VStr "token") (VStr "backend-cert") (VStr "/tmp/cert.pem")
       (VStr "https://backend") []
     = (Rejected (vendor_error (VNum 404)), [vendor_error (VNum 404)]).
Proof.
  destruct (certificate_operations_expected_codes
              (always_failing (vendor_error (VNum 404))) render_nothing
              sample_wso2APIM (VStr "token") (VStr "backend-cert")
              (VStr "/tmp/cert.pem") (VStr "https://backend")
              (vendor_error (VNum 404)) (VNum 404) [] eq_refl eq_refl)
    as (Hlookup & Hremove & Hupload).
  split; [|split].
  - apply Hlookup; [eexists; split; reflexivity | left; reflexivity].
  - apply Hremove; [eexists; split; reflexivity | left; reflexivity].
  - apply Hupload; [eexists; split; reflexivity |].
    intros [H|H]; discriminate.
Defined.

Lemma keeps_promise_ret {A} (a : A) : keeps_promise (ret a).
Proof. intros s. reflexivity. Qed.

Lemma keeps_promise_lift {A} (c : completion A) : keeps_promise (lift c).
Proof. intros s. reflexivity. Qed.

Lemma keeps_promise_bind {A B} (m : M A) (k : A -> M B) :
  keeps_promise m -> (forall a, keeps_promise (k a)) -> keeps_promise (bind m k).
Proof.
  intros Hm Hk s. unfold bind. specialize (Hm s).
  destruct (m s) as [[a|e] s1]; simpl in *; [|exact Hm].
  now rewrite Hk.
Qed.

Lemma keeps_promise_constructAPIDef (user gatewayEnv apiDef apiId : value) :
  keeps_promise (constructAPIDef user gatewayEnv apiDef apiId).
Proof.
  intros s. unfold constructAPIDef, try_catch, lift.
  destruct (constructAPIDef_body user gatewayEnv apiDef apiId); reflexivity.
Qed.

Lemma createAPIDef_request_promise
    (wso2APIM accessToken apiDef : value) (s s' : state) (req : request) :
  createAPIDef_request wso2APIM accessToken apiDef s = (Normal req, s') ->
  promise s' = promise s.
Proof.
  intros H.
  assert (K : keeps_promise (createAPIDef_request wso2APIM accessToken apiDef)).
  { unfold createAPIDef_request, field.
    repeat (apply keeps_promise_bind; [|intros ?]);
      auto using keeps_promise_lift, keeps_promise_ret,
        keeps_promise_constructAPIDef. }
  specialize (K s). now rewrite H in K.
Qed.

Lemma updateAPIDef_request_promise
    (wso2APIM accessToken apiDef apiId : value) (s s' : state) (req : request) :
  updateAPIDef_request wso2APIM accessToken apiDef apiId s = (Normal req, s') ->
  promise s' = promise s.
Proof.
  intros H.
  assert (K : keeps_promise
                (updateAPIDef_request wso2APIM accessToken apiDef apiId)).
  { unfold updateAPIDef_request, field.
    repeat (apply keeps_promise_bind; [|intros ?]);
      auto using keeps_promise_lift, keeps_promise_ret,
        keeps_promise_constructAPIDef. }
  specialize (K s). now rewrite H in K.
Qed.

(** [updateAPIDef], next to [createAPIDef] in the source, rejects with the
    error itself. *)
Lemma updateAPIDef_rejects_with_error
    (axios : request -> http_result) (renderError_result : value -> value)
    (wso2APIM accessToken apiDef apiId err : value) (l : log)
    (req : request) (s' : state) :
  updateAPIDef_request wso2APIM accessToken apiDef apiId (mkState l Pending)
  = (Normal req, s') ->
  axios req = HttpErr err ->
  updateAPIDef axios renderError_result wso2APIM accessToken apiDef apiId l
  = (Rejected err, (rendered s' ++ [err])%list).
Proof.
  intros Hreq Herr. pose proof (updateAPIDef_request_promise _ _ _ _ _ _ _ Hreq) as Hp.
  unfold updateAPIDef, async_function, bind. rewrite Hreq.
  unfold then_catch. rewrite Herr.
  unfold render_and_reject, renderError, bind, log_error, ret, reject. cbn.
  cbn in Hp. now rewrite Hp.
Qed.

(** C2 fails on [createAPIDef]: when its HTTP call fails with [err] the
    promise is rejected with what [utils.renderError(err)] returned, not
    with [err]; the error is rendered once. *)
Theorem createAPIDef_rejects_with_rendering
    (axios : request -> http_result) (renderError_result : value -> value)
    (wso2APIM accessToken apiDef err : value) (l : log)
    (req : request) (s' : state) :
  createAPIDef_request wso2APIM accessToken apiDef (mkState l Pending)
  = (Normal req, s') ->
  axios req = HttpErr err ->
  createAPIDef axios renderError_result wso2APIM accessToken apiDef l
  = (Rejected (renderError_result err), (rendered s' ++ [err])%list).
Proof.
  intros Hreq Herr. pose proof (createAPIDef_request_promise _ _ _ _ _ _ Hreq) as Hp.
  unfold createAPIDef, async_function, bind. rewrite Hreq.
  unfold then_catch. rewrite Herr.
  unfold renderError, bind, log_error, ret, reject. cbn.
  cbn in Hp. now rewrite Hp.
Qed.

Lemma createAPIDef_rejects_with_rendering_witness :
  createAPIDef (always_failing (vendor_error (VNum 409))) render_nothing
    sample_wso2APIM (VStr "token") sample_apiDef []
  = (Rejected VUndefined, [vendor_error (VNum 409)])
  /\ updateAPIDef (always_failing (vendor_error (VNum 409))) render_nothing
       sample_wso2APIM (VStr "token") sample_apiDef (VStr "id-1") []
     = (Rejected (vendor_error (VNum 409)), [vendor_error (VNum 409)]).
Proof.
  split.
  - exact (createAPIDef_rejects_with_rendering
             (always_failing (vendor_error (VNum 409))) render_nothing
             sample_wso2APIM (VStr "token") sample_apiDef
             (vendor_error (VNum 409)) [] _ _ eq_refl eq_refl).
  - reflexivity.
Defined.

(** The other operations reject with the error itself and render it
    once. *)
Lemma sibling_operations_reject_with_error
    (axios : request -> http_result) (renderError_result : value -> value)
    (base64 : string -> string)
    (wso2APIM accessToken a b c err : value) (l : log) :
  (fails_with axios (registerClient_request base64 wso2APIM) err ->
   registerClient axios renderError_result base64 wso2APIM l
   = (Rejected err, (l ++ [err])%list))
  /\ (fails_with axios (generateToken_request base64 wso2APIM a b) err ->
      generateToken axios renderError_result base64 wso2APIM a b l
      = (Rejected err, (l ++ [err])%list))
  /\ (fails_with axios (isAPIDeployed_request wso2APIM accessToken a b c) err ->
      isAPIDeployed axios renderError_result wso2APIM accessToken a b c l
      = (Rejected err, (l ++ [err])%list))
  /\ (fails_with axios (publishAPIDef_request wso2APIM accessToken a) err ->
      publishAPIDef axios renderError_result wso2APIM accessToken a l
      = (Rejected err, (l ++ [err])%list))
  /\ (fails_with axios (listInvokableAPIUrl_request wso2APIM accessToken a) err ->
      listInvokableAPIUrl axios renderError_result wso2APIM accessToken a l
      = (Rejected err, (l ++ [err])%list))
  /\ (fails_with axios (removeAPIDef_request wso2APIM accessToken a) err ->
      removeAPIDef axios renderError_result wso2APIM accessToken a l
      = (Rejected err, (l ++ [err])%list))
  /\ (fails_with axios (updateCert_request wso2APIM accessToken a b) err ->
      updateCert axios renderError_result wso2APIM accessToken a b l
      = (Rejected err, (l ++ [err])%list))
  /\ (fails_with axios (listCertInfo_request wso2APIM accessToken a) err ->
      listCertInfo axios renderError_result wso2APIM accessToken a l
      = (Rejected err, (l ++ [err])%list)).
Proof.
  repeat split; intros Hf; now apply render_and_reject_operation.
Qed.

(** A certificate operation whose call fails without a response (the
    error has no [response]) leaves its promise pending: the [catch]
    callback throws while reading the vendor code. *)
Lemma isCertUploaded_pending_without_response :
  isCertUploaded (always_failing network_error) render_nothing sample_wso2APIM
    (VStr "token") (VStr "backend-cert") []
  = (Pending, []).
Proof. reflexivity. Qed.

(** ** Further properties of the payload mapper *)

Lemma mappable_inv (apiDef : value) :
  mappable apiDef = true ->
  nullish apiDef = false
  /\ nullish (read "backend" apiDef) = false
  /\ (exists tags, spread (read "tags" apiDef) = Normal tags)
  /\ nullish (read "swaggerSpec" apiDef) = false.
Proof.
  unfold mappable. intros H.
  apply andb_prop in H as [H Hs]. apply andb_prop in H as [H Ht].
  apply andb_prop in H as [Ha Hb].
  apply negb_true_iff in Ha, Hb, Hs. repeat split; try assumption.
  destruct (read "tags" apiDef); try discriminate; simpl; eauto.
Qed.

Lemma constructAPIDef_body_mappable (user gatewayEnv apiDef apiId : value) :
  mappable apiDef = true ->
  exists out, constructAPIDef_body user gatewayEnv apiDef apiId = Normal (VObj out).
Proof.
  intros Hm. destruct (mappable_inv _ Hm) as (Ha & Hb & [tags Ht] & Hs).
  unfold constructAPIDef_body.
  destruct (backend_completes _ Ha Hb) as [bk ->]. cbn [bindC].
  destruct (mediationPolicies_completes _ Ha) as [ms ->]. cbn [bindC].
  rewrite !(get_present _ _ Ha). cbn [bindC]. rewrite Ht. cbn [bindC].
  rewrite (get_present _ _ Hb). cbn [bindC].
  destruct (contact_field_completes "email" _ Hs) as [e ->]. cbn [bindC].
  destruct (contact_field_completes "name" _ Hs) as [n ->]. cbn [bindC].
  destruct (truthy (read "cors" apiDef)) eqn:Hc; [|eauto].
  destruct (constructCorsConfiguration_completes _ Ha Hc) as [c ->]. cbn [bindC].
  eauto.
Qed.

Lemma constructAPIDef_body_unmappable (user gatewayEnv apiDef apiId : value) :
  mappable apiDef = false ->
  constructAPIDef_body user gatewayEnv apiDef apiId = Throw TypeError.
Proof.
  unfold mappable. intros Hm.
  unfold constructAPIDef_body.
  destruct (nullish apiDef) eqn:Ha.
  { unfold constructAPIDef_backend, get. now rewrite Ha. }
  destruct (nullish (read "backend" apiDef)) eqn:Hb.
  { unfold constructAPIDef_backend. rewrite (get_present _ _ Ha). cbn [bindC].
    unfold get. now rewrite Hb. }
  destruct (backend_completes _ Ha Hb) as [bk ->]. cbn [bindC].
  destruct (mediationPolicies_completes _ Ha) as [ms ->]. cbn [bindC].
  rewrite !(get_present _ _ Ha). cbn [bindC].
  cbn [negb andb] in Hm.
  destruct (read "tags" apiDef) eqn:Ht; try reflexivity;
    cbn [spreadable andb] in Hm; apply negb_false_iff in Hm;
    cbn [spread bindC]; rewrite (get_present _ _ Hb); cbn [bindC];
    unfold contact_field, get; rewrite Hm; reflexivity.
Qed.

(** X1: [constructAPIDef] never throws.  It returns an object and renders
    nothing exactly when the definition has a backend descriptor, a swagger
    specification and tags that can be spread; otherwise it renders one
    TypeError and returns [undefined]. *)
Theorem constructAPIDef_undefined_or_object
    (user gatewayEnv apiDef apiId : value) (s : state) :
  (mappable apiDef = true ->
   exists out, constructAPIDef user gatewayEnv apiDef apiId s = (Normal (VObj out), s))
  /\ (mappable apiDef = false ->
      constructAPIDef user gatewayEnv apiDef apiId s
      = (Normal VUndefined, mkState (rendered s ++ [TypeError])%list (promise s))).
Proof.
  split; intros Hm; unfold constructAPIDef, try_catch, lift.
  - destruct (constructAPIDef_body_mappable user gatewayEnv apiDef apiId Hm)
      as [out ->].
    eauto.
  - now rewrite constructAPIDef_body_unmappable.
Qed.

Lemma constructAPIDef_undefined_or_object_witness :
  (exists out,
     constructAPIDef (VStr "admin") (VStr "Production and Sandbox") sample_apiDef
       VUndefined initial_state = (Normal (VObj out), initial_state))
  /\ constructAPIDef (VStr "admin") (VStr "Production and Sandbox")
       sample_unmappable_apiDef VUndefined initial_state
     = (Normal VUndefined, mkState [TypeError] Pending).
Proof.
  split.
  - apply (constructAPIDef_undefined_or_object (VStr "admin")
             (VStr "Production and Sandbox") sample_apiDef VUndefined initial_state).
    reflexivity.
  - apply (constructAPIDef_undefined_or_object (VStr "admin")
             (VStr "Production and Sandbox") sample_unmappable_apiDef VUndefined
             initial_state).
    reflexivity.
Defined.

Lemma backend_none (apiDef : value) :
  nullish apiDef = false ->
  nullish (read "backend" apiDef) = false ->
  truthy (read "http" (read "backend" apiDef)) = false ->
  truthy (read "jms" (read "backend" apiDef)) = false ->
  constructAPIDef_backend apiDef = Normal (VUndefined, VUndefined).
Proof.
  intros Ha Hb Hh Hj. unfold constructAPIDef_backend.
  rewrite (get_present _ _ Ha). cbn [bindC].
  rewrite !(get_present _ _ Hb). cbn [bindC]. now rewrite Hh, Hj.
Qed.

Lemma backend_jms_no_destination (apiDef : value) :
  nullish apiDef = false ->
  truthy (read "http" (read "backend" apiDef)) = false ->
  truthy (read "jms" (read "backend" apiDef)) = true ->
  truthy (read "destination" (read "jms" (read "backend" apiDef))) = false ->
  constructAPIDef_backend apiDef = Normal (VUndefined, VStr "HTTP").
Proof.
  intros Ha Hh Hj Hd. unfold constructAPIDef_backend.
  rewrite (get_present _ _ Ha). cbn [bindC].
  assert (Hb : nullish (read "backend" apiDef) = false).
  { destruct (read "backend" apiDef); try reflexivity; discriminate. }
  rewrite !(get_present _ _ Hb). cbn [bindC]. rewrite Hh, Hj.
  rewrite !(get_truthy _ _ Hj). cbn [bindC]. now rewrite Hd.
Qed.

(** X2: a well-formed definition with neither an HTTP nor a JMS backend is
    still mapped: [type] is [undefined] and the serialized endpoint
    configuration has no [url] under either endpoint. *)
Theorem constructAPIDef_no_backend
    (user gatewayEnv apiDef apiId : value) (s : state) :
  well_formed apiDef = true ->
  truthy (read "http" (read "backend" apiDef)) = false ->
  truthy (read "jms" (read "backend" apiDef)) = false ->
  exists out t,
    constructAPIDef user gatewayEnv apiDef apiId s = (Normal (VObj out), s)
    /\ lookup "type" out = VUndefined
    /\ json_serialize (js_or (read "endpointType" (read "backend" apiDef)) (VStr "http"))
       = Some t
    /\ lookup "endpointConfig" out = VStr (endpointConfig_text_no_url t).
Proof.
  intros Hwf Hh Hj.
  destruct (well_formed_inv _ Hwf) as (Ha & Hb & _).
  destruct (json_serialize_defined _
              (js_or_http_defined (read "endpointType" (read "backend" apiDef))))
    as [t Ht].
  exists (mapped_output user gatewayEnv apiDef apiId), t.
  split; [now apply constructAPIDef_well_formed|].
  rewrite !lookup_mapped_output by reflexivity.
  unfold mapped_literal. rewrite (backend_none _ Ha Hb Hh Hj). cbn [the fst snd].
  split; [reflexivity|]. split; [exact Ht|].
  cbn [wso2ApiDefinition_literal lookup String.eqb Ascii.eqb Bool.eqb].
  now apply endpointConfig_serialized_no_url.
Qed.

Lemma constructAPIDef_no_backend_witness :
  exists out t,
    constructAPIDef (VStr "admin") (VStr "Production and Sandbox")
      sample_no_backend_apiDef VUndefined initial_state
    = (Normal (VObj out), initial_state)
    /\ lookup "type" out = VUndefined
    /\ json_serialize (VStr "address") = Some t
    /\ lookup "endpointConfig" out = VStr (endpointConfig_text_no_url t).
Proof.
  apply (constructAPIDef_no_backend (VStr "admin") (VStr "Production and Sandbox")
           sample_no_backend_apiDef VUndefined initial_state); reflexivity.
Defined.

(** X3: a backend that is declared without its address (an HTTP backend
    whose base URL is missing or empty, or a JMS backend whose destination
    is) still gives [type] [HTTP], with no [url] under either endpoint of
    the serialized endpoint configuration. *)
Theorem constructAPIDef_backend_without_address
    (user gatewayEnv apiDef apiId : value) (s : state) :
  well_formed apiDef = true ->
  (truthy (read "http" (read "backend" apiDef)) = true
   /\ truthy (read "baseUrl" (read "http" (read "backend" apiDef))) = false)
  \/ (truthy (read "http" (read "backend" apiDef)) = false
      /\ truthy (read "jms" (read "backend" apiDef)) = true
      /\ truthy (read "destination" (read "jms" (read "backend" apiDef))) = false) ->
  exists out t,
    constructAPIDef user gatewayEnv apiDef apiId s = (Normal (VObj out), s)
    /\ lookup "type" out = VStr "HTTP"
    /\ lookup "endpointConfig" out = VStr (endpointConfig_text_no_url t).
Proof.
  intros Hwf Hcase.
  destruct (well_formed_inv _ Hwf) as (Ha & Hb & _).
  destruct (json_serialize_defined _
              (js_or_http_defined (read "endpointType" (read "backend" apiDef))))
    as [t Ht].
  exists (mapped_output user gatewayEnv apiDef apiId), t.
  split; [now apply constructAPIDef_well_formed|].
  rewrite !lookup_mapped_output by reflexivity.
  unfold mapped_literal.
  assert (Hbk : constructAPIDef_backend apiDef = Normal (VUndefined, VStr "HTTP")).
  { destruct Hcase as [[Hh Hu] | (Hh & Hj & Hd)].
    - rewrite (backend_http _ Ha Hh). unfold or_undefined. now rewrite Hu.
    - now apply backend_jms_no_destination. }
  rewrite Hbk. cbn [the fst snd]. split; [reflexivity|].
  cbn [wso2ApiDefinition_literal lookup String.eqb Ascii.eqb Bool.eqb].
  now apply endpointConfig_serialized_no_url.
Qed.

Lemma constructAPIDef_backend_without_address_witness :
  exists out t,
    constructAPIDef (VStr "admin") (VStr "Production and Sandbox")
      sample_no_baseUrl_apiDef VUndefined initial_state
    = (Normal (VObj out), initial_state)
    /\ lookup "type" out = VStr "HTTP"
    /\ lookup "endpointConfig" out = VStr (endpointConfig_text_no_url t).
Proof.
  apply (constructAPIDef_backend_without_address (VStr "admin")
           (VStr "Production and Sandbox") sample_no_baseUrl_apiDef VUndefined
           initial_state).
  - reflexivity.
  - left. split; reflexivity.
Defined.

(** X4: a JMS backend with a destination [D] and no parameters gives the
    backend URL [jms:/D?]: the question mark is written even when nothing
    follows it.  It is the [url] of both endpoints in the object that is
    serialized into [endpointConfig], and the serialized text carries it
    as a JSON string that reads back as the same URL. *)
Theorem constructAPIDef_jms_without_parameters
    (user gatewayEnv apiDef apiId : value) (s : state) (D : string) :
  well_formed apiDef = true ->
  truthy (read "http" (read "backend" apiDef)) = false ->
  read "destination" (read "jms" (read "backend" apiDef)) = VStr D ->
  D <> "" ->
  nullish (read "parameters" (read "jms" (read "backend" apiDef))) = true ->
  exists out endpoint_type,
    constructAPIDef user gatewayEnv apiDef apiId s = (Normal (VObj out), s)
    /\ lookup "endpointConfig" out
       = JSON_stringify
           (VObj [("production_endpoints",
                   VObj [("url", VStr ("jms:/" ++ D ++ "?")); ("config", VNull)]);
                  ("sandbox_endpoints",
                   VObj [("url", VStr ("jms:/" ++ D ++ "?")); ("config", VNull)]);
                  ("endpoint_type", endpoint_type)])
    /\ (exists t,
          json_serialize endpoint_type = Some t
          /\ lookup "endpointConfig" out
             = VStr (endpointConfig_text (json_quote ("jms:/" ++ D ++ "?")) t))
    /\ json_parse_string (json_quote ("jms:/" ++ D ++ "?"))
       = Some ("jms:/" ++ D ++ "?").
Proof.
  intros Hwf Hh Hd Hne Hp.
  destruct (well_formed_inv _ Hwf) as (Ha & _).
  pose proof (read_VStr_truthy _ _ _ Hd Hne) as Hj.
  exists (mapped_output user gatewayEnv apiDef apiId),
    (js_or (read "endpointType" (read "backend" apiDef)) (VStr "http")).
  split; [now apply constructAPIDef_well_formed|].
  rewrite !lookup_mapped_output by reflexivity.
  unfold mapped_literal. rewrite (backend_jms _ Ha Hh Hj).
  2: { rewrite Hd. now apply truthy_VStr. }
  rewrite Hd.
  assert (Hq : qs_stringify false
                 (read "parameters" (read "jms" (read "backend" apiDef))) = "").
  { destruct (read "parameters" (read "jms" (read "backend" apiDef)));
      try discriminate; reflexivity. }
  rewrite Hq. cbn [the fst snd].
  split; [reflexivity|]. split.
  - destruct (json_serialize_defined _
                (js_or_http_defined (read "endpointType" (read "backend" apiDef))))
      as [t Ht].
    exists t. split; [exact Ht|].
    cbn [wso2ApiDefinition_literal lookup String.eqb Ascii.eqb Bool.eqb].
    now apply endpointConfig_serialized.
  - apply json_parse_string_quote.
Qed.

Lemma constructAPIDef_jms_without_parameters_witness :
  exists out endpoint_type,
    constructAPIDef (VStr "admin") (VStr "Production and Sandbox")
      sample_jms_no_parameters_apiDef VUndefined initial_state
    = (Normal (VObj out), initial_state)
    /\ lookup "endpointConfig" out
       = JSON_stringify
           (VObj [("production_endpoints",
                   VObj [("url", VStr "jms:/orders?"); ("config", VNull)]);
                  ("sandbox_endpoints",
                   VObj [("url", VStr "jms:/orders?"); ("config", VNull)]);
                  ("endpoint_type", endpoint_type)])
    /\ (exists t,
          json_serialize endpoint_type = Some t
          /\ lookup "endpointConfig" out
             = VStr (endpointConfig_text (json_quote "jms:/orders?") t))
    /\ json_parse_string (json_quote "jms:/orders?") = Some "jms:/orders?".
Proof.
  apply (constructAPIDef_jms_without_parameters (VStr "admin")
           (VStr "Production and Sandbox") sample_jms_no_parameters_apiDef
           VUndefined initial_state "orders").
  - reflexivity.
  - reflexivity.
  - reflexivity.
  - discriminate.
  - reflexivity.
Defined.

Lemma mediationPolicies_entries (apiDef : value) :
  nullish apiDef = false ->
  constructAPIDef_mediationPolicies apiDef
  = Normal (flat_map (policy_entry (read "mediationPolicies" apiDef))
              ["in"; "out"; "fault"]).
Proof.
  intros Ha. unfold constructAPIDef_mediationPolicies.
  rewrite (get_present _ _ Ha). cbn [bindC flat_map]. rewrite app_nil_r.
  destruct (truthy (read "mediationPolicies" apiDef)) eqn:Hm.
  - rewrite !(get_truthy _ _ Hm). reflexivity.
  - destruct (read "mediationPolicies" apiDef); try discriminate; reflexivity.
Qed.

(** X5: the [sequences] of the output list the mediation policies that are
    set, as [{name, type}] entries in the order in, out, fault; a policy
    that is missing or empty gives no entry, and so does a missing
    [mediationPolicies] block. *)
Theorem constructAPIDef_sequences
    (user gatewayEnv apiDef apiId : value) (s : state) :
  well_formed apiDef = true ->
  exists out,
    constructAPIDef user gatewayEnv apiDef apiId s = (Normal (VObj out), s)
    /\ lookup "sequences" out
       = VArr (flat_map (policy_entry (read "mediationPolicies" apiDef))
                 ["in"; "out"; "fault"]).
Proof.
  intros Hwf. destruct (well_formed_inv _ Hwf) as (Ha & _).
  exists (mapped_output user gatewayEnv apiDef apiId).
  split; [now apply constructAPIDef_well_formed|].
  rewrite lookup_mapped_output by reflexivity.
  unfold mapped_literal. now rewrite (mediationPolicies_entries _ Ha).
Qed.

Lemma constructAPIDef_sequences_witness :
  exists out,
    constructAPIDef (VStr "admin") (VStr "Production and Sandbox")
      sample_full_apiDef VUndefined initial_state
    = (Normal (VObj out), initial_state)
    /\ lookup "sequences" out
       = VArr [VObj [("name", VStr "log-in"); ("type", VStr "in")];
               VObj [("name", VStr "log-fault"); ("type", VStr "fault")]].
Proof.
  apply (constructAPIDef_sequences (VStr "admin") (VStr "Production and Sandbox")
           sample_full_apiDef VUndefined initial_state).
  reflexivity.
Defined.

(** X6: a throughput limit [n] is written to both [maxTps.sandbox] and
    [maxTps.production]; a limit of zero, like a missing one, leaves both
    [undefined]. *)
Theorem constructAPIDef_maxTps
    (user gatewayEnv apiDef apiId : value) (s : state) :
  well_formed apiDef = true ->
  exists out,
    constructAPIDef user gatewayEnv apiDef apiId s = (Normal (VObj out), s)
    /\ (forall n,
          read "maxTps" apiDef = VNum n ->
          lookup "maxTps" out
          = VObj [("sandbox", if (n =? 0)%Z then VUndefined else VNum n);
                  ("production", if (n =? 0)%Z then VUndefined else VNum n)])
    /\ (nullish (read "maxTps" apiDef) = true ->
        lookup "maxTps" out
        = VObj [("sandbox", VUndefined); ("production", VUndefined)]).
Proof.
  intros Hwf.
  exists (mapped_output user gatewayEnv apiDef apiId).
  split; [now apply constructAPIDef_well_formed|].
  rewrite lookup_mapped_output by reflexivity.
  unfold mapped_literal. cbn [wso2ApiDefinition_literal lookup String.eqb Ascii.eqb Bool.eqb].
  split.
  - intros n ->. unfold or_undefined. cbn [truthy].
    destruct (n =? 0)%Z; reflexivity.
  - intros Hn. destruct (read "maxTps" apiDef); try discriminate; reflexivity.
Qed.

Lemma constructAPIDef_maxTps_witness :
  exists out,
    constructAPIDef (VStr "admin") (VStr "Production and Sandbox")
      sample_full_apiDef VUndefined initial_state
    = (Normal (VObj out), initial_state)
    /\ lookup "maxTps" out
       = VObj [("sandbox", VNum 100); ("production", VNum 100)].
Proof.
  destruct (constructAPIDef_maxTps (VStr "admin") (VStr "Production and Sandbox")
              sample_full_apiDef VUndefined initial_state eq_refl)
    as (out & Hout & Hn & _).
  exists out. split; [exact Hout|]. apply (Hn 100%Z). reflexivity.
Defined.

(** X7: an [apiProperties] object with at least one property is passed on
    as [additionalProperties]; an empty object, like a missing one, gives
    [undefined]. *)
Theorem constructAPIDef_additionalProperties
    (user gatewayEnv apiDef apiId : value) (s : state) :
  well_formed apiDef = true ->
  exists out,
    constructAPIDef user gatewayEnv apiDef apiId s = (Normal (VObj out), s)
    /\ (forall props,
          read "apiProperties" apiDef = VObj props ->
          lookup "additionalProperties" out
          = match props with
            | [] => VUndefined
            | _ :: _ => VObj props
            end)
    /\ (nullish (read "apiProperties" apiDef) = true ->
        lookup "additionalProperties" out = VUndefined).
Proof.
  intros Hwf.
  exists (mapped_output user gatewayEnv apiDef apiId).
  split; [now apply constructAPIDef_well_formed|].
  rewrite lookup_mapped_output by reflexivity.
  unfold mapped_literal. cbn [wso2ApiDefinition_literal lookup String.eqb Ascii.eqb Bool.eqb].
  split.
  - intros props ->. destruct props; reflexivity.
  - intros Hn. destruct (read "apiProperties" apiDef); try discriminate; reflexivity.
Qed.

Lemma constructAPIDef_additionalProperties_witness :
  exists out,
    constructAPIDef (VStr "admin") (VStr "Production and Sandbox")
      sample_full_apiDef VUndefined initial_state
    = (Normal (VObj out), initial_state)
    /\ lookup "additionalProperties" out = VObj [("team", VStr "orders")].
Proof.
  destruct (constructAPIDef_additionalProperties (VStr "admin")
              (VStr "Production and Sandbox") sample_full_apiDef VUndefined
              initial_state eq_refl)
    as (out & Hout & Hp & _).
  exists out. split; [exact Hout|].
  apply (Hp [("team", VStr "orders")]). reflexivity.
Defined.

Lemma contact_field_value (f : string) (swaggerSpec : value) :
  nullish swaggerSpec = false ->
  contact_field f swaggerSpec
  = Normal (or_undefined (read f (read "contact" (read "info" swaggerSpec)))).
Proof.
  intros Hs. unfold contact_field.
  rewrite (get_present _ _ Hs). cbn [bindC].
  destruct (truthy (read "info" swaggerSpec)) eqn:Hi.
  - rewrite (get_truthy _ _ Hi). cbn [bindC].
    destruct (truthy (read "contact" (read "info" swaggerSpec))) eqn:Hc.
    + now rewrite (get_truthy _ _ Hc).
    + destruct (read "contact" (read "info" swaggerSpec)); try discriminate;
        reflexivity.
  - destruct (read "info" swaggerSpec); try discriminate; reflexivity.
Qed.

(** X8: the business information is read from [swaggerSpec.info.contact]:
    its [email] fills both e-mail fields and its [name] both owner fields.
    A missing [info], [contact], [email] or [name] gives [undefined] in the
    fields concerned and no failure. *)
Theorem constructAPIDef_businessInformation
    (user gatewayEnv apiDef apiId : value) (s : state) :
  well_formed apiDef = true ->
  let contact := read "contact" (read "info" (read "swaggerSpec" apiDef)) in
  exists out,
    constructAPIDef user gatewayEnv apiDef apiId s = (Normal (VObj out), s)
    /\ lookup "businessInformation" out
       = VObj [("businessOwnerEmail", or_undefined (read "email" contact));
               ("technicalOwnerEmail", or_undefined (read "email" contact));
               ("technicalOwner", or_undefined (read "name" contact));
               ("businessOwner", or_undefined (read "name" contact))].
Proof.
  intros Hwf contact. destruct (well_formed_inv _ Hwf) as (_ & _ & _ & Hs).
  exists (mapped_output user gatewayEnv apiDef apiId).
  split; [now apply constructAPIDef_well_formed|].
  rewrite lookup_mapped_output by reflexivity.
  unfold mapped_literal. rewrite !(contact_field_value _ _ Hs). reflexivity.
Qed.

Lemma constructAPIDef_businessInformation_witness :
  (exists out,
     constructAPIDef (VStr "admin") (VStr "Production and Sandbox")
       sample_full_apiDef VUndefined initial_state
     = (Normal (VObj out), initial_state)
     /\ lookup "businessInformation" out
        = VObj [("businessOwnerEmail", VStr "orders@example.org");
                ("technicalOwnerEmail", VStr "orders@example.org");
                ("technicalOwner", VStr "Team Orders");
                ("businessOwner", VStr "Team Orders")])
  /\ (exists out,
        constructAPIDef (VStr "admin") (VStr "Production and Sandbox")
          sample_apiDef VUndefined initial_state
        = (Normal (VObj out), initial_state)
        /\ lookup "businessInformation" out
           = VObj [("businessOwnerEmail", VUndefined);
                   ("technicalOwnerEmail", VUndefined);
                   ("technicalOwner", VUndefined);
                   ("businessOwner", VUndefined)]).
Proof.
  split.
  - apply (constructAPIDef_businessInformation (VStr "admin")
             (VStr "Production and Sandbox") sample_full_apiDef VUndefined
             initial_state).
    reflexivity.
  - apply (constructAPIDef_businessInformation (VStr "admin")
             (VStr "Production and Sandbox") sample_apiDef VUndefined
             initial_state).
    reflexivity.
Defined.

(** ** Further properties of the operations *)

Lemma endpoint_url_present (wso2APIM : value) (api path : string) :
  nullish wso2APIM = false ->
  endpoint_url wso2APIM api path
  = Normal ("https://" ++ to_string (read "host" wso2APIM) ++ ":"
            ++ to_string (read "port" wso2APIM) ++ api
            ++ to_string (read "versionSlug" wso2APIM) ++ path).
Proof.
  intros Hw. unfold endpoint_url. now rewrite !(get_present _ _ Hw).
Qed.

Lemma mapped_output_id (user gatewayEnv apiDef apiId : value) :
  mapped_output user gatewayEnv apiDef apiId
  = assign "id" apiId (mapped_output user gatewayEnv apiDef VUndefined).
Proof.
  unfold mapped_output.
  destruct (truthy (read "cors" apiDef)); reflexivity.
Qed.

Lemma createAPIDef_request_well_formed
    (wso2APIM accessToken apiDef : value) (s : state) :
  nullish wso2APIM = false ->
  well_formed apiDef = true ->
  createAPIDef_request wso2APIM accessToken apiDef s
  = (Normal
       (mkRequest "POST"
          ("https://" ++ to_string (read "host" wso2APIM) ++ ":"
           ++ to_string (read "port" wso2APIM) ++ "/api/am/publisher/"
           ++ to_string (read "versionSlug" wso2APIM) ++ "/apis")
          (VObj (mapped_output (read "user" wso2APIM) (read "gatewayEnv" wso2APIM)
                   apiDef VUndefined))
          (VObj [("headers",
                  bearer accessToken [("Content-Type", VStr "application/json")]);
                 ("httpsAgent", httpsAgent)])),
     s).
Proof.
  intros Hw Hwf. unfold createAPIDef_request, field.
  rewrite (endpoint_url_present _ _ _ Hw), !(get_present _ _ Hw).
  cbv beta delta [bind lift ret] iota.
  now rewrite (constructAPIDef_well_formed _ _ _ _ _ Hwf).
Qed.

Lemma updateAPIDef_request_well_formed
    (wso2APIM accessToken apiDef apiId : value) (s : state) :
  nullish wso2APIM = false ->
  well_formed apiDef = true ->
  updateAPIDef_request wso2APIM accessToken apiDef apiId s
  = (Normal
       (mkRequest "PUT"
          ("https://" ++ to_string (read "host" wso2APIM) ++ ":"
           ++ to_string (read "port" wso2APIM) ++ "/api/am/publisher/"
           ++ to_string (read "versionSlug" wso2APIM) ++ "/apis/"
           ++ to_string apiId)
          (VObj (mapped_output (read "user" wso2APIM) (read "gatewayEnv" wso2APIM)
                   apiDef apiId))
          (VObj [("headers",
                  bearer accessToken [("Content-Type", VStr "application/json")]);
                 ("httpsAgent", httpsAgent)])),
     s).
Proof.
  intros Hw Hwf. unfold updateAPIDef_request, field.
  rewrite (endpoint_url_present _ _ _ Hw), !(get_present _ _ Hw).
  cbv beta delta [bind lift ret] iota.
  now rewrite (constructAPIDef_well_formed _ _ _ _ _ Hwf).
Qed.

(** X9: for the same configuration, token and well-formed definition the
    request of [updateAPIDef] is the request of [createAPIDef] with the
    method PUT, the API id appended to the URL and the [id] of the payload
    set; the payload of [createAPIDef] has an [undefined] [id], and both
    name the configured user as provider and the configured gateway
    environment.  Building either request renders nothing. *)
Theorem updateAPIDef_request_of_createAPIDef_request
    (wso2APIM accessToken apiDef apiId : value) (s : state) :
  nullish wso2APIM = false ->
  well_formed apiDef = true ->
  exists create update out,
    createAPIDef_request wso2APIM accessToken apiDef s = (Normal create, s)
    /\ updateAPIDef_request wso2APIM accessToken apiDef apiId s = (Normal update, s)
    /\ method create = "POST"
    /\ method update = "PUT"
    /\ url update = url create ++ "/" ++ to_string apiId
    /\ config update = config create
    /\ data create = VObj out
    /\ data update = VObj (assign "id" apiId out)
    /\ lookup "id" out = VUndefined
    /\ lookup "provider" out = read "user" wso2APIM
    /\ lookup "gatewayEnvironments" out = read "gatewayEnv" wso2APIM.
Proof.
  intros Hw Hwf.
  eexists _, _,
    (mapped_output (read "user" wso2APIM) (read "gatewayEnv" wso2APIM) apiDef
       VUndefined).
  split; [now apply createAPIDef_request_well_formed|].
  split; [now apply updateAPIDef_request_well_formed|].
  cbn [method url config data].
  split; [reflexivity|]. split; [reflexivity|].
  split; [now rewrite !string_app_assoc|].
  split; [reflexivity|]. split; [reflexivity|].
  split; [now rewrite <- mapped_output_id|].
  rewrite !lookup_mapped_output by reflexivity. repeat split; reflexivity.
Qed.

Lemma updateAPIDef_request_of_createAPIDef_request_witness :
  exists create update out,
    createAPIDef_request sample_wso2APIM (VStr "token") sample_apiDef initial_state
    = (Normal create, initial_state)
    /\ updateAPIDef_request sample_wso2APIM (VStr "token") sample_apiDef
         (VStr "id-1") initial_state
       = (Normal update, initial_state)
    /\ method create = "POST"
    /\ method update = "PUT"
    /\ url update = url create ++ "/" ++ "id-1"
    /\ config update = config create
    /\ data create = VObj out
    /\ data update = VObj (assign "id" (VStr "id-1") out)
    /\ lookup "id" out = VUndefined
    /\ lookup "provider" out = VStr "admin"
    /\ lookup "gatewayEnvironments" out = VStr "Production and Sandbox".
Proof.
  apply (updateAPIDef_request_of_createAPIDef_request sample_wso2APIM (VStr "token")
           sample_apiDef (VStr "id-1") initial_state); reflexivity.
Defined.

(** X10: when the definition cannot be mapped, [createAPIDef] and
    [updateAPIDef] still build their request: the TypeError is rendered and
    the request goes out with [undefined] as its payload. *)
Theorem requests_with_undefined_payload
    (wso2APIM accessToken apiDef apiId : value) (l : log) :
  nullish wso2APIM = false ->
  mappable apiDef = false ->
  exists create update,
    createAPIDef_request wso2APIM accessToken apiDef (mkState l Pending)
    = (Normal create, mkState (l ++ [TypeError])%list Pending)
    /\ updateAPIDef_request wso2APIM accessToken apiDef apiId (mkState l Pending)
       = (Normal update, mkState (l ++ [TypeError])%list Pending)
    /\ method create = "POST" /\ data create = VUndefined
    /\ method update = "PUT" /\ data update = VUndefined.
Proof.
  intros Hw Hm.
  unfold createAPIDef_request, updateAPIDef_request, field.
  rewrite !(endpoint_url_present _ _ _ Hw), !(get_present _ _ Hw).
  cbv beta delta [bind lift ret constructAPIDef try_catch log_error] iota.
  rewrite !(constructAPIDef_body_unmappable _ _ _ _ Hm).
  cbn [rendered promise]. eexists _, _. repeat split; reflexivity.
Qed.

Lemma requests_with_undefined_payload_witness :
  exists create update,
    createAPIDef_request sample_wso2APIM (VStr "token") sample_unmappable_apiDef
      initial_state
    = (Normal create, mkState [TypeError] Pending)
    /\ updateAPIDef_request sample_wso2APIM (VStr "token") sample_unmappable_apiDef
         (VStr "id-1") initial_state
       = (Normal update, mkState [TypeError] Pending)
    /\ method create = "POST" /\ data create = VUndefined
    /\ method update = "PUT" /\ data update = VUndefined.
Proof.
  apply (requests_with_undefined_payload sample_wso2APIM (VStr "token")
           sample_unmappable_apiDef (VStr "id-1") []); reflexivity.
Defined.

(** X11: without a configuration object (the [wso2APIM] argument is
    [undefined] or [null]) no operation rejects: each one renders the
    TypeError of its first property read and resolves with [undefined],
    whatever the HTTP exchange would have answered. *)
Theorem operations_without_configuration
    (axios : request -> http_result) (renderError_result : value -> value)
    (base64 : string -> string)
    (wso2APIM accessToken a b c : value) (l : log) :
  nullish wso2APIM = true ->
  let unconfigured := (Resolved VUndefined, (l ++ [TypeError])%list) in
  registerClient axios renderError_result base64 wso2APIM l = unconfigured
  /\ generateToken axios renderError_result base64 wso2APIM a b l = unconfigured
  /\ isAPIDeployed axios renderError_result wso2APIM accessToken a b c l = unconfigured
  /\ isCertUploaded axios renderError_result wso2APIM accessToken a l = unconfigured
  /\ createAPIDef axios renderError_result wso2APIM accessToken a l = unconfigured
  /\ publishAPIDef axios renderError_result wso2APIM accessToken a l = unconfigured
  /\ listInvokableAPIUrl axios renderError_result wso2APIM accessToken a l
     = unconfigured
  /\ uploadCert axios renderError_result wso2APIM accessToken a b c l = unconfigured
  /\ updateAPIDef axios renderError_result wso2APIM accessToken a b l = unconfigured
  /\ removeAPIDef axios renderError_result wso2APIM accessToken a l = unconfigured
  /\ removeCert axios renderError_result wso2APIM accessToken a l = unconfigured
  /\ updateCert axios renderError_result wso2APIM accessToken a b l = unconfigured
  /\ listCertInfo axios renderError_result wso2APIM accessToken a l = unconfigured.
Proof.
  intros Hw unconfigured. subst unconfigured.
  destruct wso2APIM; try discriminate; repeat split; reflexivity.
Qed.

Lemma operations_without_configuration_witness :
  registerClient (always_answering sample_response) render_nothing (fun t => t)
    VUndefined []
  = (Resolved VUndefined, [TypeError])
  /\ createAPIDef (always_answering sample_response) render_nothing VUndefined
       (VStr "token") sample_apiDef []
     = (Resolved VUndefined, [TypeError]).
Proof.
  destruct (operations_without_configuration (always_answering sample_response)
              render_nothing (fun t => t) VUndefined (VStr "token") sample_apiDef
              VUndefined VUndefined [] eq_refl)
    as (Hregister & _ & _ & _ & Hcreate & _).
  split; [exact Hregister | exact Hcreate].
Defined.

Section AdapterSuccess.

Variable axios : request -> http_result.
Variable renderError_result : value -> value.

Lemma resolve_data_operation
    (built : completion request) (onErr : value -> M unit) (res : value) (l : log) :
  succeeds_with axios built res ->
  nullish res = false ->
  async_function renderError_result
    (req <- lift built ;; then_catch (axios req) resolve_data onErr) l
  = (Resolved (read "data" res), l).
Proof.
  intros (req & -> & Hres) Hn.
  unfold async_function, bind, lift, then_catch, resolve_data, field, bind, lift.
  rewrite Hres, (get_present _ _ Hn). reflexivity.
Qed.

Lemma resolve_raw_operation
    (built : completion request) (onErr : value -> M unit) (res : value) (l : log) :
  succeeds_with axios built res ->
  async_function renderError_result
    (req <- lift built ;; then_catch (axios req) resolve onErr) l
  = (Resolved res, l).
Proof.
  intros (req & -> & Hres).
  unfold async_function, bind, lift, then_catch. rewrite Hres. reflexivity.
Qed.

Lemma render_unless_operation_throws
    (expected : Z) (built : completion request) (onOk : value -> M unit)
    (err e : value) (l : log) :
  fails_with axios built err ->
  vendor_code err = Throw e ->
  async_function renderError_result
    (req <- lift built ;;
     then_catch (axios req) onOk (render_unless renderError_result expected)) l
  = (Pending, l).
Proof.
  intros (req & -> & Herr) Hcode.
  unfold async_function, bind, lift, then_catch, render_unless, bind, lift.
  rewrite Herr, Hcode. reflexivity.
Qed.

End AdapterSuccess.

(** X12: on a successful call that is answered with [res], six operations
    resolve with the response body [res.data] and four with the response
    [res] itself; none of them renders anything. *)
Theorem operations_resolve
    (axios : request -> http_result) (renderError_result : value -> value)
    (base64 : string -> string)
    (wso2APIM accessToken a b c res : value) (l : log) :
  nullish res = false ->
  (succeeds_with axios (registerClient_request base64 wso2APIM) res ->
   registerClient axios renderError_result base64 wso2APIM l
   = (Resolved (read "data" res), l))
  /\ (succeeds_with axios (isAPIDeployed_request wso2APIM accessToken a b c) res ->
      isAPIDeployed axios renderError_result wso2APIM accessToken a b c l
      = (Resolved (read "data" res), l))
  /\ (succeeds_with axios (isCertUploaded_request wso2APIM accessToken a) res ->
      isCertUploaded axios renderError_result wso2APIM accessToken a l
      = (Resolved (read "data" res), l))
  /\ (succeeds_with axios (listInvokableAPIUrl_request wso2APIM accessToken a) res ->
      listInvokableAPIUrl axios renderError_result wso2APIM accessToken a l
      = (Resolved (read "data" res), l))
  /\ (succeeds_with axios (removeAPIDef_request wso2APIM accessToken a) res ->
      removeAPIDef axios renderError_result wso2APIM accessToken a l
      = (Resolved (read "data" res), l))
  /\ (succeeds_with axios (listCertInfo_request wso2APIM accessToken a) res ->
      listCertInfo axios renderError_result wso2APIM accessToken a l
      = (Resolved (read "data" res), l))
  /\ (succeeds_with axios (publishAPIDef_request wso2APIM accessToken a) res ->
      publishAPIDef axios renderError_result wso2APIM accessToken a l
      = (Resolved res, l))
  /\ (succeeds_with axios (uploadCert_request wso2APIM accessToken a b c) res ->
      uploadCert axios renderError_result wso2APIM accessToken a b c l
      = (Resolved res, l))
  /\ (succeeds_with axios (removeCert_request wso2APIM accessToken a) res ->
      removeCert axios renderError_result wso2APIM accessToken a l
      = (Resolved res, l))
  /\ (succeeds_with axios (updateCert_request wso2APIM accessToken a b) res ->
      updateCert axios renderError_result wso2APIM accessToken a b l
      = (Resolved res, l)).
Proof.
  intros Hn. repeat split; intros Hs.
  1-6: now apply resolve_data_operation.
  all: now apply resolve_raw_operation.
Qed.

Lemma operations_resolve_witness :
  isCertUploaded (always_answering sample_response) render_nothing sample_wso2APIM
    (VStr "token") (VStr "backend-cert") []
  = (Resolved (read "data" sample_response), [])
  /\ removeCert (always_answering sample_response) render_nothing sample_wso2APIM
       (VStr "token") (VStr "backend-cert") []
     = (Resolved sample_response, []).
Proof.
  destruct (operations_resolve (always_answering sample_response) render_nothing
              (fun t => t) sample_wso2APIM (VStr "token") (VStr "backend-cert")
              VUndefined VUndefined sample_response [] eq_refl)
    as (_ & _ & Hlookup & _ & _ & _ & _ & _ & Hremove & _).
  split.
  - apply Hlookup. eexists. split; reflexivity.
  - apply Hremove. eexists. split; reflexivity.
Defined.

(** X13: on a successful call whose response has a body, [generateToken]
    resolves with [{accessToken}] taken from [res.data.access_token],
    [createAPIDef] with [{apiId, apiName, apiContext, apiStatus}] taken
    from the [id], [name], [context] and [status] of the body, and
    [updateAPIDef] with the body; the call itself renders nothing. *)
Theorem operations_resolve_normalized
    (axios : request -> http_result) (renderError_result : value -> value)
    (base64 : string -> string)
    (wso2APIM accessToken apiDef apiId clientId clientSecret res : value) (l : log) :
  nullish res = false ->
  nullish (read "data" res) = false ->
  (succeeds_with axios (generateToken_request base64 wso2APIM clientId clientSecret)
     res ->
   generateToken axios renderError_result base64 wso2APIM clientId clientSecret l
   = (Resolved (VObj [("accessToken", read "access_token" (read "data" res))]), l))
  /\ (forall req s',
        createAPIDef_request wso2APIM accessToken apiDef (mkState l Pending)
        = (Normal req, s') ->
        axios req = HttpOk res ->
        createAPIDef axios renderError_result wso2APIM accessToken apiDef l
        = (Resolved
             (VObj [("apiId", read "id" (read "data" res));
                    ("apiName", read "name" (read "data" res));
                    ("apiContext", read "context" (read "data" res));
                    ("apiStatus", read "status" (read "data" res))]),
           rendered s'))
  /\ (forall req s',
        updateAPIDef_request wso2APIM accessToken apiDef apiId (mkState l Pending)
        = (Normal req, s') ->
        axios req = HttpOk res ->
        updateAPIDef axios renderError_result wso2APIM accessToken apiDef apiId l
        = (Resolved (read "data" res), rendered s')).
Proof.
  intros Hn Hd. split; [|split].
  - intros (req & Hreq & Hres).
    unfold generateToken, async_function, bind, lift. rewrite Hreq.
    unfold then_catch. rewrite Hres. unfold field, bind, lift.
    rewrite (get_present _ _ Hn), (get_present _ _ Hd). reflexivity.
  - intros req s' Hreq Hres.
    pose proof (createAPIDef_request_promise _ _ _ _ _ _ Hreq) as Hp.
    unfold createAPIDef, async_function, bind. rewrite Hreq.
    unfold then_catch. rewrite Hres. unfold field, bind, lift.
    rewrite (get_present _ _ Hn), !(get_present _ _ Hd).
    unfold resolve. cbn in Hp |- *. now rewrite Hp.
  - intros req s' Hreq Hres.
    pose proof (updateAPIDef_request_promise _ _ _ _ _ _ _ Hreq) as Hp.
    unfold updateAPIDef, async_function, bind. rewrite Hreq.
    unfold then_catch. rewrite Hres. unfold resolve_data, field, bind, lift.
    rewrite (get_present _ _ Hn).
    unfold resolve. cbn in Hp |- *. now rewrite Hp.
Qed.

Lemma operations_resolve_normalized_witness :
  generateToken (always_answering sample_response) render_nothing (fun t => t)
    sample_wso2APIM (VStr "client") (VStr "secret") []
  = (Resolved (VObj [("accessToken", VStr "token")]), [])
  /\ createAPIDef (always_answering sample_response) render_nothing sample_wso2APIM
       (VStr "token") sample_apiDef []
     = (Resolved
          (VObj [("apiId", VStr "id-1"); ("apiName", VStr "orders");
                 ("apiContext", VStr "/orders"); ("apiStatus", VStr "CREATED")]),
        []).
Proof.
  destruct (operations_resolve_normalized (always_answering sample_response)
              render_nothing (fun t => t) sample_wso2APIM (VStr "token")
              sample_apiDef (VStr "id-1") (VStr "client") (VStr "secret")
              sample_response [] eq_refl eq_refl)
    as (Htoken & Hcreate & _).
  split.
  - apply Htoken. eexists. split; reflexivity.
  - exact (Hcreate _ _ eq_refl eq_refl).
Defined.

(** X14: a successful call whose response has no body makes [generateToken]
    and [createAPIDef] reject: reading a field of the missing body throws
    in the [then] callback, the TypeError reaches the [catch] callback and
    is rendered; [generateToken] rejects with it and [createAPIDef] with
    what the rendering returned. *)
Theorem operations_reject_response_without_body
    (axios : request -> http_result) (renderError_result : value -> value)
    (base64 : string -> string)
    (wso2APIM accessToken apiDef clientId clientSecret res : value) (l : log) :
  nullish res = false ->
  nullish (read "data" res) = true ->
  (succeeds_with axios (generateToken_request base64 wso2APIM clientId clientSecret)
     res ->
   generateToken axios renderError_result base64 wso2APIM clientId clientSecret l
   = (Rejected TypeError, (l ++ [TypeError])%list))
  /\ (forall req s',
        createAPIDef_request wso2APIM accessToken apiDef (mkState l Pending)
        = (Normal req, s') ->
        axios req = HttpOk res ->
        createAPIDef axios renderError_result wso2APIM accessToken apiDef l
        = (Rejected (renderError_result TypeError),
           (rendered s' ++ [TypeError])%list)).
Proof.
  intros Hn Hd. split.
  - intros (req & Hreq & Hres).
    unfold generateToken, async_function, bind, lift. rewrite Hreq.
    unfold then_catch. rewrite Hres. unfold field, bind, lift.
    rewrite (get_present _ _ Hn). unfold get. rewrite Hd. reflexivity.
  - intros req s' Hreq Hres.
    pose proof (createAPIDef_request_promise _ _ _ _ _ _ Hreq) as Hp.
    unfold createAPIDef, async_function, bind. rewrite Hreq.
    unfold then_catch. rewrite Hres. unfold field, bind, lift.
    rewrite (get_present _ _ Hn). unfold get. rewrite Hd.
    unfold renderError, bind, log_error, ret, reject. cbn in Hp |- *.
    now rewrite Hp.
Qed.

Lemma operations_reject_response_without_body_witness :
  generateToken (always_answering sample_empty_response) render_nothing
    (fun t => t) sample_wso2APIM (VStr "client") (VStr "secret") []
  = (Rejected TypeError, [TypeError])
  /\ createAPIDef (always_answering sample_empty_response) render_nothing
       sample_wso2APIM (VStr "token") sample_apiDef []
     = (Rejected VUndefined, [TypeError]).
Proof.
  destruct (operations_reject_response_without_body
              (always_answering sample_empty_response) render_nothing (fun t => t)
              sample_wso2APIM (VStr "token") sample_apiDef (VStr "client")
              (VStr "secret") sample_empty_response [] eq_refl eq_refl)
    as (Htoken & Hcreate).
  split.
  - apply Htoken. eexists. split; reflexivity.
  - exact (Hcreate _ _ eq_refl eq_refl).
Defined.

(** X15: when the failed call of [isCertUploaded], [removeCert] or
    [uploadCert] carries no vendor payload (the error has no [response], or
    the response no [data]), reading the vendor code throws inside the
    [catch] callback: nothing is rendered and the promise is never
    settled. *)
Theorem certificate_operations_pending
    (axios : request -> http_result) (renderError_result : value -> value)
    (wso2APIM accessToken certAlias cert backendUrl err : value) (l : log) :
  vendor_code err = Throw TypeError ->
  (fails_with axios (isCertUploaded_request wso2APIM accessToken certAlias) err ->
   isCertUploaded axios renderError_result wso2APIM accessToken certAlias l
   = (Pending, l))
  /\ (fails_with axios (removeCert_request wso2APIM accessToken certAlias) err ->
      removeCert axios renderError_result wso2APIM accessToken certAlias l
      = (Pending, l))
  /\ (fails_with axios
        (uploadCert_request wso2APIM accessToken certAlias cert backendUrl) err ->
      uploadCert axios renderError_result wso2APIM accessToken certAlias cert
        backendUrl l
      = (Pending, l)).
Proof.
  intros Hcode. repeat split; intros Hf.
  all: now apply (render_unless_operation_throws _ _ _ _ _ err TypeError).
Qed.

Lemma certificate_operations_pending_witness :
  isCertUploaded (always_failing network_error) render_nothing sample_wso2APIM
    (VStr "token") (VStr "backend-cert") []
  = (Pending, [])
  /\ uploadCert (always_failing network_error) render_nothing sample_wso2APIM
       (VStr "token") (VStr "backend-cert") (VStr "/tmp/cert.pem")
       (VStr "https://backend") []
     = (Pending, []).
Proof.
  destruct (certificate_operations_pending (always_failing network_error)
              render_nothing sample_wso2APIM (VStr "token") (VStr "backend-cert")
              (VStr "/tmp/cert.pem") (VStr "https://backend") network_error []
              eq_refl)
    as (Hlookup & _ & Hupload).
  split.
  - apply Hlookup. eexists. split; reflexivity.
  - apply Hupload. eexists. split; reflexivity.
Defined.

Lemma string_forallb_app (f : ascii -> bool) (a b : string) :
  string_forallb f (a ++ b) = string_forallb f a && string_forallb f b.
Proof.
  induction a as [|c a IH]; [reflexivity|].
  simpl. now rewrite IH, andb_assoc.
Qed.

Lemma qs_encode_char_safe (c : ascii) :
  string_forallb url_safe
    (if qs_unreserved c then String c ""
     else String "%" (String (upper_hex_digit (nat_of_ascii c / 16))
                        (String (upper_hex_digit (nat_of_ascii c mod 16)) "")))
  = true.
Proof.
  destruct c as [b0 b1 b2 b3 b4 b5 b6 b7].
  destruct b0, b1, b2, b3, b4, b5, b6, b7; reflexivity.
Qed.

(** What [qs] writes for an encoded text is made of unreserved characters
    and percent signs only. *)
Lemma qs_encode_safe (s : string) : string_forallb url_safe (qs_encode s) = true.
Proof.
  induction s as [|c s IH]; [reflexivity|].
  cbn [qs_encode]. rewrite string_forallb_app, IH, andb_true_r.
  apply qs_encode_char_safe.
Qed.

(** X16: with a string user name and password in the configuration the
    body of the token request is the four pairs [grant_type], [username],
    [password] and [scope] joined by [&], the user name and the password
    URL-encoded: whatever characters they contain, their encoded texts hold
    no [&], [=] or space that could add or break a pair. *)
Theorem generateToken_request_body
    (base64 : string -> string)
    (wso2APIM clientId clientSecret : value) (user pass : string) :
  nullish wso2APIM = false ->
  read "user" wso2APIM = VStr user ->
  read "pass" wso2APIM = VStr pass ->
  exists req,
    generateToken_request base64 wso2APIM clientId clientSecret = Normal req
    /\ method req = "POST"
    /\ data req
       = VStr ("grant_type=password&username=" ++ qs_encode user
               ++ "&password=" ++ qs_encode pass
               ++ "&scope=" ++ qs_encode token_scope)
    /\ string_forallb url_safe (qs_encode user) = true
    /\ string_forallb url_safe (qs_encode pass) = true
    /\ url_safe "&" = false /\ url_safe "=" = false /\ url_safe " " = false.
Proof.
  intros Hw Hu Hp. unfold generateToken_request.
  rewrite !(get_present _ _ Hw), Hu, Hp. cbn [bindC].
  eexists. split; [reflexivity|]. cbn [method data].
  split; [reflexivity|]. split.
  - unfold qs_stringify. cbn [flat_map qs_pairs fst snd to_string qs_format app join].
    reflexivity.
  - repeat split; try apply qs_encode_safe; reflexivity.
Qed.

Lemma generateToken_request_body_witness :
  exists req,
    generateToken_request (fun t => t) sample_wso2APIM (VStr "client")
      (VStr "secret") = Normal req
    /\ method req = "POST"
    /\ data req
       = VStr ("grant_type=password&username=" ++ qs_encode "admin"
               ++ "&password=" ++ qs_encode "secret"
               ++ "&scope=" ++ qs_encode token_scope)
    /\ string_forallb url_safe (qs_encode "admin") = true
    /\ string_forallb url_safe (qs_encode "secret") = true
    /\ url_safe "&" = false /\ url_safe "=" = false /\ url_safe " " = false.
Proof.
  apply (generateToken_request_body (fun t => t) sample_wso2APIM (VStr "client")
           (VStr "secret") "admin" "secret"); reflexivity.
Defined.
